(** * python-gearman: client handler, worker and admin client

    A shallow embedding of [gearman/client_handler.py], [gearman/worker.py]
    and [gearman/admin_client.py].  Python objects that are shared and
    mutated in place (job requests, command handlers) live in stores
    indexed by object identity; dictionaries are finite maps; a method is a
    function from the state before the call to the state after it together
    with what the call did: return a value or raise. *)

From stdpp Require Import gmap strings list fin_maps functions pretty.

Open Scope string_scope.
Open Scope list_scope.

(** ** Python exceptions and results of calls *)

(** The exception classes the three modules raise or let through.
    [SystemExit] and [KeyboardInterrupt] derive from [BaseException] only;
    every other class derives from [Exception]. *)
Inductive exc_class : Type :=
  | InvalidClientState
  | InvalidAdminClientState
  | KeyError
  | ValueError
  | IndexError
  | ApplicationError (name : string)
  | SystemExit
  | KeyboardInterrupt.

Global Instance exc_class_eq_dec : EqDecision exc_class.
Proof. solve_decision. Defined.

(** What [except Exception] matches. *)
Definition derives_from_Exception (c : exc_class) : bool :=
  match c with
  | SystemExit | KeyboardInterrupt => false
  | _ => true
  end.

Record PyExc : Type := mkExc { exc_type : exc_class; exc_message : string }.

Inductive outcome (A : Type) : Type :=
  | Returned (a : A)
  | Raised (e : PyExc).
Arguments Returned {A} a.
Arguments Raised {A} e.

Definition raises {A} (o : outcome A) (c : exc_class) : Prop :=
  match o with
  | Raised e => exc_type e = c
  | Returned _ => False
  end.

(** ** Constants and packets *)

Inductive JobState : Type := JOB_PENDING | JOB_QUEUED | JOB_COMPLETE | JOB_FAILED.

Global Instance JobState_eq_dec : EqDecision JobState.
Proof. solve_decision. Defined.

Inductive Priority : Type := PRIORITY_LOW | PRIORITY_NORMAL | PRIORITY_HIGH.

(** The binary commands the three modules send. *)
Inductive command_type : Type :=
  | GEARMAN_COMMAND_SUBMIT_JOB
  | GEARMAN_COMMAND_SUBMIT_JOB_BG
  | GEARMAN_COMMAND_SUBMIT_JOB_HIGH
  | GEARMAN_COMMAND_SUBMIT_JOB_HIGH_BG
  | GEARMAN_COMMAND_SUBMIT_JOB_LOW
  | GEARMAN_COMMAND_SUBMIT_JOB_LOW_BG
  | GEARMAN_COMMAND_GET_STATUS
  | GEARMAN_COMMAND_RESET_ABILITIES
  | GEARMAN_COMMAND_CAN_DO
  | GEARMAN_COMMAND_SET_CLIENT_ID
  | GEARMAN_COMMAND_WORK_STATUS
  | GEARMAN_COMMAND_WORK_DATA
  | GEARMAN_COMMAND_WORK_WARNING
  | GEARMAN_COMMAND_WORK_COMPLETE
  | GEARMAN_COMMAND_WORK_FAIL
  | GEARMAN_COMMAND_WORK_EXCEPTION.

Global Instance command_type_eq_dec : EqDecision command_type.
Proof. solve_decision. Defined.

(** What an admin call expects back: the text commands of the
    administrative protocol and the binary echo. *)
Inductive admin_command_type : Type :=
  | GEARMAN_SERVER_COMMAND_STATUS
  | GEARMAN_SERVER_COMMAND_VERSION
  | GEARMAN_SERVER_COMMAND_WORKERS
  | GEARMAN_SERVER_COMMAND_MAXQUEUE
  | GEARMAN_SERVER_COMMAND_SHUTDOWN
  | GEARMAN_COMMAND_ECHO_REQ
  | GEARMAN_COMMAND_ECHO_RES.

Global Instance admin_command_type_eq_dec : EqDecision admin_command_type.
Proof. solve_decision. Defined.

(** A command handed to [send_command(cmd_type, **kwargs)]; a keyword
    argument may be [None]. *)
Record command : Type := mkCommand {
  cmd_type : command_type;
  cmd_args : list (string * option string)
}.

Global Instance command_eq_dec : EqDecision command.
Proof. solve_decision. Defined.

(** The payload hook of the base command handler: [encode_data] and
    [decode_data] (the default is the identity on bytes). *)
Class DataEncoder : Type := {
  encode_data : string -> string;
  decode_data : string -> string
}.

(** What the modules take from the Python runtime and from
    [gearman.constants] / [gearman.protocol], none of which is part of the
    three files: the [float] builtin (it returns a float or raises
    [ValueError]), the [%f], [%r] and [%s] conversions used in messages,
    the [repr] of an object given by its identity, and the table
    behind [submit_cmd_for_background_priority]. *)
Class PyRuntime : Type := {
  pyfloat : Type;
  float : string -> outcome pyfloat;
  format_f : pyfloat -> string;
  state_repr : JobState -> string;
  state_str : JobState -> string;
  admin_command_repr : admin_command_type -> string;
  object_repr : nat -> string;
  submit_cmd_for_background_priority : bool -> Priority -> command_type
}.

(** [str(x)] for a value that is a string or [None]. *)
Definition py_str (x : option string) : string :=
  match x with
  | Some s => s
  | None => "None"
  end.

(** ** Jobs and job requests *)

Record GearmanJob : Type := mkJob {
  connection : nat;
  handle : option string;
  task : string;
  unique : string;
  data : string
}.

Definition set_handle (h : option string) (j : GearmanJob) : GearmanJob :=
  mkJob (connection j) h (task j) (unique j) (data j).

Section WithRuntime.
Context `{RT : PyRuntime} `{ENC : DataEncoder}.

Record ServerStatus : Type := mkServerStatus {
  status_handle : string;
  known : bool;
  running : bool;
  numerator : pyfloat;
  denominator : pyfloat;
  time_received : pyfloat
}.

Record JobRequest : Type := mkRequest {
  job : GearmanJob;
  state : JobState;
  background : bool;
  priority : Priority;
  data_updates : list string;
  warning_updates : list string;
  status_updates : list (pyfloat * pyfloat);
  result : option string;
  exception : option string;
  server_status : option ServerStatus
}.

Definition set_job (j : GearmanJob) (r : JobRequest) : JobRequest :=
  mkRequest j (state r) (background r) (priority r) (data_updates r)
    (warning_updates r) (status_updates r) (result r) (exception r)
    (server_status r).
Definition set_state (s : JobState) (r : JobRequest) : JobRequest :=
  mkRequest (job r) s (background r) (priority r) (data_updates r)
    (warning_updates r) (status_updates r) (result r) (exception r)
    (server_status r).
Definition set_data_updates (l : list string) (r : JobRequest) : JobRequest :=
  mkRequest (job r) (state r) (background r) (priority r) l
    (warning_updates r) (status_updates r) (result r) (exception r)
    (server_status r).
Definition set_warning_updates (l : list string) (r : JobRequest) : JobRequest :=
  mkRequest (job r) (state r) (background r) (priority r) (data_updates r)
    l (status_updates r) (result r) (exception r) (server_status r).
Definition set_status_updates (l : list (pyfloat * pyfloat)) (r : JobRequest)
  : JobRequest :=
  mkRequest (job r) (state r) (background r) (priority r) (data_updates r)
    (warning_updates r) l (result r) (exception r) (server_status r).
Definition set_result (x : option string) (r : JobRequest) : JobRequest :=
  mkRequest (job r) (state r) (background r) (priority r) (data_updates r)
    (warning_updates r) (status_updates r) x (exception r) (server_status r).
Definition set_exception (x : option string) (r : JobRequest) : JobRequest :=
  mkRequest (job r) (state r) (background r) (priority r) (data_updates r)
    (warning_updates r) (status_updates r) (result r) x (server_status r).
Definition set_server_status (x : option ServerStatus) (r : JobRequest)
  : JobRequest :=
  mkRequest (job r) (state r) (background r) (priority r) (data_updates r)
    (warning_updates r) (status_updates r) (result r) (exception r) x.

(** ** GearmanClientCommandHandler

    [request_objects] is the store of the [JobRequest] objects, indexed by
    object identity: the deque and the dictionary of the handler hold
    references into it, as does the caller who submitted the request.
    [sent_commands] is what the handler passed to [send_command], oldest
    first. *)
Record ClientHandler : Type := mkClient {
  request_objects : nat -> JobRequest;
  requests_awaiting_handles : list nat;
  handle_to_request_map : gmap string nat;
  sent_commands : list command
}.

Definition update_request (ref : nat) (f : JobRequest -> JobRequest)
    (h : ClientHandler) : ClientHandler :=
  mkClient (<[ref := f (request_objects h ref)]> (request_objects h))
    (requests_awaiting_handles h) (handle_to_request_map h) (sent_commands h).

(** Modelled from the spec: [send_command] of the base command handler
    ([gearman/command_handler.py] is not among the sources); sending never
    blocks or fails, the command is queued on the connection in send
    order. *)
Definition send_command (cmd : command_type) (args : list (string * option string))
    (h : ClientHandler) : ClientHandler :=
  mkClient (request_objects h) (requests_awaiting_handles h)
    (handle_to_request_map h) (sent_commands h ++ [mkCommand cmd args]).

Definition send_job_request (current_request : nat) (h : ClientHandler)
    : ClientHandler :=
  let req := request_objects h current_request in
  let gearman_job := job req in
  let cmd := submit_cmd_for_background_priority (background req) (priority req) in
  let outbound_data := encode_data (data gearman_job) in
  let h1 := send_command cmd
      [("task", Some (task gearman_job));
       ("unique", Some (unique gearman_job));
       ("data", Some outbound_data)] h in
  mkClient (request_objects h1) (requests_awaiting_handles h1 ++ [current_request])
    (handle_to_request_map h1) (sent_commands h1).

Definition send_get_status_of_job (current_request : nat) (h : ClientHandler)
    : ClientHandler :=
  send_command GEARMAN_COMMAND_GET_STATUS
    [("job_handle", handle (job (request_objects h current_request)))] h.

(** [_assert_request_state]: [None] when the state is the expected one,
    the exception raised otherwise. *)
Definition _assert_request_state (current_request : JobRequest)
    (expected_state : JobState) : option PyExc :=
  if decide (state current_request = expected_state) then None
  else Some (mkExc InvalidClientState
    ("Expected handle (" +:+ py_str (handle (job current_request)) +:+
     ") to be in state " +:+ state_repr expected_state +:+
     ", got " +:+ state_str (state current_request))).

Definition recv_job_created (job_handle : string) (h : ClientHandler)
    : ClientHandler * outcome bool :=
  match requests_awaiting_handles h with
  | [] => (h, Raised (mkExc InvalidClientState
                        "Received a job_handle with no pending requests"))
  | current_request :: rest =>
      let h1 := mkClient (request_objects h) rest (handle_to_request_map h)
                  (sent_commands h) in
      match _assert_request_state (request_objects h1 current_request) JOB_PENDING with
      | Some e => (h1, Raised e)
      | None =>
          let h2 := update_request current_request
                      (fun r => set_job (set_handle (Some job_handle) (job r)) r) h1 in
          let h3 := update_request current_request (set_state JOB_QUEUED) h2 in
          (mkClient (request_objects h3) (requests_awaiting_handles h3)
             (<[job_handle := current_request]> (handle_to_request_map h3))
             (sent_commands h3),
           Returned true)
      end
  end.

(** The common opening of the [recv_work_*] callbacks: the dictionary
    lookup [handle_to_request_map[job_handle]] ([KeyError] on a missing
    key) followed by the state assertion. *)
Definition lookup_queued (job_handle : string) (h : ClientHandler)
    : outcome nat :=
  match handle_to_request_map h !! job_handle with
  | None => Raised (mkExc KeyError job_handle)
  | Some current_request =>
      match _assert_request_state (request_objects h current_request) JOB_QUEUED with
      | Some e => Raised e
      | None => Returned current_request
      end
  end.

Definition recv_work_data (job_handle data : string) (h : ClientHandler)
    : ClientHandler * outcome bool :=
  match lookup_queued job_handle h with
  | Raised e => (h, Raised e)
  | Returned current_request =>
      (update_request current_request
         (fun r => set_data_updates (data_updates r ++ [decode_data data]) r) h,
       Returned true)
  end.

Definition recv_work_warning (job_handle data : string) (h : ClientHandler)
    : ClientHandler * outcome bool :=
  match lookup_queued job_handle h with
  | Raised e => (h, Raised e)
  | Returned current_request =>
      (update_request current_request
         (fun r => set_warning_updates (warning_updates r ++ [decode_data data]) r) h,
       Returned true)
  end.

Definition recv_work_status (job_handle numerator denominator : string)
    (h : ClientHandler) : ClientHandler * outcome bool :=
  match lookup_queued job_handle h with
  | Raised e => (h, Raised e)
  | Returned current_request =>
      match float numerator with
      | Raised e => (h, Raised e)
      | Returned n =>
          match float denominator with
          | Raised e => (h, Raised e)
          | Returned d =>
              let status_tuple := (n, d) in
              (update_request current_request
                 (fun r => set_status_updates (status_updates r ++ [status_tuple]) r) h,
               Returned true)
          end
      end
  end.

Definition recv_work_complete (job_handle data : string) (h : ClientHandler)
    : ClientHandler * outcome bool :=
  match lookup_queued job_handle h with
  | Raised e => (h, Raised e)
  | Returned current_request =>
      let h1 := update_request current_request
                  (set_result (Some (decode_data data))) h in
      (update_request current_request (set_state JOB_COMPLETE) h1, Returned true)
  end.

Definition recv_work_fail (job_handle : string) (h : ClientHandler)
    : ClientHandler * outcome bool :=
  match lookup_queued job_handle h with
  | Raised e => (h, Raised e)
  | Returned current_request =>
      (update_request current_request (set_state JOB_FAILED) h, Returned true)
  end.

Definition recv_work_exception (job_handle data : string) (h : ClientHandler)
    : ClientHandler * outcome bool :=
  match lookup_queued job_handle h with
  | Raised e => (h, Raised e)
  | Returned current_request =>
      (update_request current_request
         (set_exception (Some (decode_data data))) h,
       Returned true)
  end.

(** [now] is the reading of [time.time()] taken during the call. *)
Definition recv_status_res (job_handle known running numerator denominator : string)
    (now : pyfloat) (h : ClientHandler) : ClientHandler * outcome bool :=
  match lookup_queued job_handle h with
  | Raised e => (h, Raised e)
  | Returned current_request =>
      match float numerator with
      | Raised e => (h, Raised e)
      | Returned n =>
          match float denominator with
          | Raised e => (h, Raised e)
          | Returned d =>
              (update_request current_request
                 (set_server_status
                    (Some (mkServerStatus job_handle
                             (bool_decide (known = "1"))
                             (bool_decide (running = "1")) n d now))) h,
               Returned true)
          end
      end
  end.

(** The inbound commands of a client connection with their fields; the
    poller dispatches each to the [recv_] method of the same name. *)
Inductive client_event : Type :=
  | JOB_CREATED (job_handle : string)
  | WORK_DATA (job_handle data : string)
  | WORK_WARNING (job_handle data : string)
  | WORK_STATUS (job_handle numerator denominator : string)
  | WORK_COMPLETE (job_handle data : string)
  | WORK_FAIL (job_handle : string)
  | WORK_EXCEPTION (job_handle data : string)
  | STATUS_RES (job_handle known running numerator denominator : string)
               (now : pyfloat).

Definition recv (ev : client_event) (h : ClientHandler)
    : ClientHandler * outcome bool :=
  match ev with
  | JOB_CREATED jh => recv_job_created jh h
  | WORK_DATA jh d => recv_work_data jh d h
  | WORK_WARNING jh d => recv_work_warning jh d h
  | WORK_STATUS jh n d => recv_work_status jh n d h
  | WORK_COMPLETE jh d => recv_work_complete jh d h
  | WORK_FAIL jh => recv_work_fail jh h
  | WORK_EXCEPTION jh d => recv_work_exception jh d h
  | STATUS_RES jh k r n d now => recv_status_res jh k r n d now h
  end.

(** A sequence of calls, each made on the state the previous one left,
    whether it returned or raised; the results are collected in order. *)
Fixpoint recv_all (evs : list client_event) (h : ClientHandler)
    : ClientHandler * list (outcome bool) :=
  match evs with
  | [] => (h, [])
  | ev :: evs' =>
      let '(h1, o) := recv ev h in
      let '(h2, os) := recv_all evs' h1 in
      (h2, o :: os)
  end.

Definition send_job_requests (reqs : list nat) (h : ClientHandler) : ClientHandler :=
  foldl (fun acc r => send_job_request r acc) h reqs.

(** [get_requests]: the deque of the requests that wait for a handle and
    the values of the handle map (the source returns an iterator over
    them). *)
Definition get_requests (h : ClientHandler) : list nat * list nat :=
  let pending_requests := requests_awaiting_handles h in
  let inflight_requests := (map_to_list (handle_to_request_map h)).*2 in
  (pending_requests, inflight_requests).

(** ** GearmanWorker *)

(** Modelled from the spec: the worker command handler
    ([gearman/worker_handler.py] is not among the sources), as far as the
    worker calls into it.  It keeps the abilities and client id it was
    given and queues commands on its connection. *)
Record WorkerHandler : Type := mkWorkerHandler {
  handler_abilities : list string;
  handler_client_id : option string;
  handler_sent : list command
}.

Definition handler_send (cmd : command_type) (args : list (string * option string))
    (h : WorkerHandler) : WorkerHandler :=
  mkWorkerHandler (handler_abilities h) (handler_client_id h)
    (handler_sent h ++ [mkCommand cmd args]).

(** Modelled from the spec: [set_abilities] of the worker command handler;
    on an ability change it sends RESET_ABILITIES and then a CAN_DO for
    each ability. *)
Definition handler_set_abilities (connection_abilities_list : list string)
    (h : WorkerHandler) : WorkerHandler :=
  let h1 := mkWorkerHandler connection_abilities_list (handler_client_id h)
              (handler_sent h) in
  foldl (fun acc t => handler_send GEARMAN_COMMAND_CAN_DO [("task", Some t)] acc)
    (handler_send GEARMAN_COMMAND_RESET_ABILITIES [] h1)
    connection_abilities_list.

(** Modelled from the spec: [set_client_id] of the worker command handler;
    it sends SET_CLIENT_ID. *)
Definition handler_set_client_id (client_id : option string)
    (h : WorkerHandler) : WorkerHandler :=
  handler_send GEARMAN_COMMAND_SET_CLIENT_ID [("client_id", client_id)]
    (mkWorkerHandler (handler_abilities h) client_id (handler_sent h)).

(** Modelled from the spec: the send-through methods of the worker command
    handler; each queues one command for the job's handle, the payload
    going through the encoding hook. *)
Definition handler_send_job_status (current_job : GearmanJob)
    (numerator denominator : string) (h : WorkerHandler) : WorkerHandler :=
  handler_send GEARMAN_COMMAND_WORK_STATUS
    [("job_handle", handle current_job); ("numerator", Some numerator);
     ("denominator", Some denominator)] h.
Definition handler_send_job_complete (current_job : GearmanJob) (data : string)
    (h : WorkerHandler) : WorkerHandler :=
  handler_send GEARMAN_COMMAND_WORK_COMPLETE
    [("job_handle", handle current_job); ("data", Some (encode_data data))] h.
Definition handler_send_job_failure (current_job : GearmanJob)
    (h : WorkerHandler) : WorkerHandler :=
  handler_send GEARMAN_COMMAND_WORK_FAIL [("job_handle", handle current_job)] h.
Definition handler_send_job_exception (current_job : GearmanJob) (data : string)
    (h : WorkerHandler) : WorkerHandler :=
  handler_send GEARMAN_COMMAND_WORK_EXCEPTION
    [("job_handle", handle current_job); ("data", Some (encode_data data))] h.
Definition handler_send_job_data (current_job : GearmanJob) (data : string)
    (h : WorkerHandler) : WorkerHandler :=
  handler_send GEARMAN_COMMAND_WORK_DATA
    [("job_handle", handle current_job); ("data", Some (encode_data data))] h.
Definition handler_send_job_warning (current_job : GearmanJob) (data : string)
    (h : WorkerHandler) : WorkerHandler :=
  handler_send GEARMAN_COMMAND_WORK_WARNING
    [("job_handle", handle current_job); ("data", Some (encode_data data))] h.

(** The dictionary [handler_initial_state] of the connection manager, with
    the two keys the worker writes. *)
Record InitialState : Type := mkInitialState {
  abilities : list string;
  client_id : option string
}.

Definition initial_client_id (i : InitialState) : option string := client_id i.

(** Connections, command handlers and callback functions are Python
    objects; each is named by its identity.  [handler_objects] is the store
    of the command handlers: the two handler maps hold references into it. *)
Record GearmanWorker : Type := mkWorker {
  worker_abilities : gmap string nat;
  worker_client_id : option string;
  command_handler_holding_job_lock : option nat;
  handler_initial_state : InitialState;
  connection_to_handler_map : gmap nat nat;
  handler_to_connection_map : gmap nat nat;
  handler_objects : nat -> WorkerHandler
}.

Definition set_worker_abilities (m : gmap string nat) (w : GearmanWorker)
    : GearmanWorker :=
  mkWorker m (worker_client_id w) (command_handler_holding_job_lock w)
    (handler_initial_state w) (connection_to_handler_map w)
    (handler_to_connection_map w) (handler_objects w).
Definition set_worker_client_id (c : option string) (w : GearmanWorker)
    : GearmanWorker :=
  mkWorker (worker_abilities w) c (command_handler_holding_job_lock w)
    (handler_initial_state w) (connection_to_handler_map w)
    (handler_to_connection_map w) (handler_objects w).
Definition set_holder (holder : option nat) (w : GearmanWorker) : GearmanWorker :=
  mkWorker (worker_abilities w) (worker_client_id w) holder
    (handler_initial_state w) (connection_to_handler_map w)
    (handler_to_connection_map w) (handler_objects w).
Definition set_initial_state (i : InitialState) (w : GearmanWorker)
    : GearmanWorker :=
  mkWorker (worker_abilities w) (worker_client_id w)
    (command_handler_holding_job_lock w) i (connection_to_handler_map w)
    (handler_to_connection_map w) (handler_objects w).
Definition update_handler (ref : nat) (f : WorkerHandler -> WorkerHandler)
    (w : GearmanWorker) : GearmanWorker :=
  mkWorker (worker_abilities w) (worker_client_id w)
    (command_handler_holding_job_lock w) (handler_initial_state w)
    (connection_to_handler_map w) (handler_to_connection_map w)
    (<[ref := f (handler_objects w ref)]> (handler_objects w)).

(** [d.keys()]: the keys of a dictionary as a list. *)
Definition keys {K V} `{Countable K} (d : gmap K V) : list K :=
  (map_to_list d).*1.

Definition _update_initial_state (w : GearmanWorker) : GearmanWorker :=
  set_initial_state (mkInitialState (keys (worker_abilities w)) (worker_client_id w)) w.

(** [for command_handler in self.handler_to_connection_map.iterkeys(): ...] *)
Definition for_each_handler (f : WorkerHandler -> WorkerHandler)
    (w : GearmanWorker) : GearmanWorker :=
  foldl (fun acc command_handler => update_handler command_handler f acc) w
    (keys (handler_to_connection_map w)).

Definition register_task (task : string) (callback_function : nat)
    (w : GearmanWorker) : GearmanWorker * string :=
  let w1 := set_worker_abilities (<[task := callback_function]> (worker_abilities w)) w in
  let w2 := _update_initial_state w1 in
  (for_each_handler (handler_set_abilities (abilities (handler_initial_state w2))) w2,
   task).

Definition unregister_task (task : string) (w : GearmanWorker)
    : GearmanWorker * string :=
  let w1 := set_worker_abilities (delete task (worker_abilities w)) w in
  let w2 := _update_initial_state w1 in
  (for_each_handler (handler_set_abilities (abilities (handler_initial_state w2))) w2,
   task).

Definition set_client_id (client_id : option string) (w : GearmanWorker)
    : GearmanWorker * option string :=
  let w1 := set_worker_client_id client_id w in
  let w2 := _update_initial_state w1 in
  (for_each_handler (handler_set_client_id (initial_client_id (handler_initial_state w2))) w2,
   client_id).

(** [self.connection_to_handler_map[current_job.connection]] *)
Definition _get_handler_for_job (current_job : GearmanJob) (w : GearmanWorker)
    : outcome nat :=
  match connection_to_handler_map w !! connection current_job with
  | Some current_handler => Returned current_handler
  | None => Raised (mkExc KeyError (object_repr (connection current_job)))
  end.

(** The shape shared by the [send_job_*] methods: fetch the handler of the
    job's connection, then call into it. *)
Definition with_handler_for_job (current_job : GearmanJob)
    (f : WorkerHandler -> WorkerHandler) (w : GearmanWorker)
    : GearmanWorker * outcome unit :=
  match _get_handler_for_job current_job w with
  | Raised e => (w, Raised e)
  | Returned current_handler => (update_handler current_handler f w, Returned tt)
  end.

Definition send_job_status (current_job : GearmanJob) (numerator denominator : string)
    (w : GearmanWorker) : GearmanWorker * outcome unit :=
  with_handler_for_job current_job
    (handler_send_job_status current_job numerator denominator) w.

Definition send_job_complete (current_job : GearmanJob) (data : string)
    (w : GearmanWorker) : GearmanWorker * outcome unit :=
  with_handler_for_job current_job (handler_send_job_complete current_job data) w.

Definition send_job_failure (current_job : GearmanJob) (w : GearmanWorker)
    : GearmanWorker * outcome unit :=
  with_handler_for_job current_job (handler_send_job_failure current_job) w.

Definition send_job_exception (current_job : GearmanJob) (data : string)
    (w : GearmanWorker) : GearmanWorker * outcome unit :=
  match _get_handler_for_job current_job w with
  | Raised e => (w, Raised e)
  | Returned current_handler =>
      let w1 := update_handler current_handler
                  (handler_send_job_exception current_job data) w in
      (update_handler current_handler (handler_send_job_failure current_job) w1,
       Returned tt)
  end.

Definition send_job_data (current_job : GearmanJob) (data : string)
    (w : GearmanWorker) : GearmanWorker * outcome unit :=
  with_handler_for_job current_job (handler_send_job_data current_job data) w.

Definition send_job_warning (current_job : GearmanJob) (data : string)
    (w : GearmanWorker) : GearmanWorker * outcome unit :=
  with_handler_for_job current_job (handler_send_job_warning current_job data) w.

Definition on_job_exception (current_job : GearmanJob) (exc_info : PyExc)
    (w : GearmanWorker) : GearmanWorker * outcome bool :=
  match send_job_failure current_job w with
  | (w1, Raised e) => (w1, Raised e)
  | (w1, Returned _) => (w1, Returned false)
  end.

Definition on_job_complete (current_job : GearmanJob) (job_result : string)
    (w : GearmanWorker) : GearmanWorker * outcome bool :=
  match send_job_complete current_job job_result w with
  | (w1, Raised e) => (w1, Raised e)
  | (w1, Returned _) => (w1, Returned true)
  end.

(** The registered callbacks are application functions: [call f job w] is
    what calling the function object [f] on [job] does to the worker (a
    callback may send updates through the worker) and what it returns or
    raises. *)
Definition callback_env : Type :=
  nat -> GearmanJob -> GearmanWorker -> GearmanWorker * outcome string.

Definition on_job_execute (call : callback_env) (current_job : GearmanJob)
    (w : GearmanWorker) : GearmanWorker * outcome bool :=
  let '(w1, tried) :=
    match worker_abilities w !! task current_job with
    | None => (w, Raised (mkExc KeyError (task current_job)))
    | Some function_callback => call function_callback current_job w
    end in
  match tried with
  | Raised e =>
      if derives_from_Exception (exc_type e)
      then on_job_exception current_job e w1
      else (w1, Raised e)
  | Returned job_result => on_job_complete current_job job_result w1
  end.

Definition set_job_lock (command_handler : nat) (lock : bool) (w : GearmanWorker)
    : GearmanWorker * bool :=
  if decide (handler_to_connection_map w !! command_handler = None) then (w, false)
  else
    let failed_lock :=
      lock && bool_decide (command_handler_holding_job_lock w ≠ None) in
    let failed_unlock :=
      negb lock &&
      bool_decide (command_handler_holding_job_lock w ≠ Some command_handler) in
    if failed_lock || failed_unlock then (w, false)
    else if lock then (set_holder (Some command_handler) w, true)
    else (set_holder None w, true).

Definition check_job_lock (command_handler : nat) (w : GearmanWorker) : bool :=
  bool_decide (command_handler_holding_job_lock w = Some command_handler).

(** [create_job]: the connection is looked up with
    [handler_to_connection_map[command_handler]]; [job_class] is the job
    class of the connection manager, built from the connection, the handle,
    the task, the unique id and the data. *)
Definition create_job (command_handler : nat) (job_handle task unique data : string)
    (w : GearmanWorker) : outcome GearmanJob :=
  match handler_to_connection_map w !! command_handler with
  | Some current_connection =>
      Returned (mkJob current_connection (Some job_handle) task unique data)
  | None => Raised (mkExc KeyError (object_repr command_handler))
  end.

(** [handle_error]: the worker gives the job lock back on behalf of the
    handler of the failed connection, then hands over to [handle_error] of
    the base connection manager, which is not among the sources and is a
    parameter here. *)
Definition handle_error (super_handle_error : nat -> GearmanWorker -> GearmanWorker)
    (current_connection : nat) (w : GearmanWorker) : GearmanWorker :=
  let w1 :=
    match connection_to_handler_map w !! current_connection with
    | Some current_handler => (set_job_lock current_handler false w).1
    | None => w
    end in
  super_handle_error current_connection w1.

(** [shutdown]: the lock is cleared before the base manager's [shutdown],
    a parameter here, closes the connections. *)
Definition shutdown (super_shutdown : GearmanWorker -> GearmanWorker)
    (w : GearmanWorker) : GearmanWorker :=
  super_shutdown (set_holder None w).

(** [after_poll]: the default polling callback keeps the worker going. *)
Definition after_poll (any_activity : bool) (w : GearmanWorker) : bool := true.

(** ** GearmanAdminClient *)

(** A parsed admin response: one line of text (version, echo, maxqueue) or
    a table with one row of named fields per line (status, workers). *)
Inductive parsed_response : Type :=
  | ResponseText (text : string)
  | ResponseRows (rows : list (list (string * string))).

Global Instance parsed_response_eq_dec : EqDecision parsed_response.
Proof. solve_decision. Defined.

(** Modelled from the spec: the admin command handler
    ([gearman/admin_client_handler.py] is not among the sources): the
    expected response kinds, the flag [response_ready], and the FIFO of
    parsed responses with their kinds. *)
Record AdminHandler : Type := mkAdminHandler {
  pending_commands : list admin_command_type;
  response_ready : bool;
  response_queue : list (admin_command_type * parsed_response)
}.

(** Modelled from the spec: [pop_response] of the admin command handler;
    it pops the response at the head of the queue and returns it with its
    kind.  The spec is silent about an empty queue; popping an empty deque
    raises [IndexError]. *)
Definition pop_response (h : AdminHandler)
    : AdminHandler * outcome (admin_command_type * parsed_response) :=
  match response_queue h with
  | [] => (h, Raised (mkExc IndexError "pop from an empty deque"))
  | r :: rest =>
      (mkAdminHandler (pending_commands h) (response_ready h) rest, Returned r)
  end.

Record GearmanAdminClient : Type := mkAdminClient {
  admin_client_timeout : pyfloat;
  current_connection : nat;
  current_handler : AdminHandler
}.

Definition set_current_handler (h : AdminHandler) (c : GearmanAdminClient)
    : GearmanAdminClient :=
  mkAdminClient (admin_client_timeout c) (current_connection c) h.

(** [poll_connections_until_stopped] of the connection manager, which is
    not among the sources: given the connections, the callback that says
    whether to keep polling (it reads the client's state at the time it is
    called) and the timeout, it drives the I/O, which may change the client
    and its handler in any way, and returns a boolean or raises. *)
Definition poller : Type :=
  list nat -> (GearmanAdminClient -> bool -> bool) -> pyfloat ->
  GearmanAdminClient -> GearmanAdminClient * outcome bool.

(** The closure [continue_while_no_response] of
    [wait_until_server_responds]: it reads [response_ready] off the current
    handler each time the poller calls it. *)
Definition continue_while_no_response (now : GearmanAdminClient) (any_activity : bool)
    : bool :=
  negb (response_ready (current_handler now)).

Definition wait_until_server_responds (poll_connections_until_stopped : poller)
    (expected_type : admin_command_type) (c : GearmanAdminClient)
    : GearmanAdminClient * outcome parsed_response :=
  match poll_connections_until_stopped [current_connection c]
          continue_while_no_response (admin_client_timeout c) c with
  | (c1, Raised e) => (c1, Raised e)
  | (c1, Returned _) =>
      if negb (response_ready (current_handler c1)) then
        (c1, Raised (mkExc InvalidAdminClientState
               ("Admin client timed out after " +:+
                format_f (admin_client_timeout c1) +:+ " second(s)")))
      else
        match pop_response (current_handler c1) with
        | (h2, Raised e) => (set_current_handler h2 c1, Raised e)
        | (h2, Returned (cmd_type, cmd_resp)) =>
            let c2 := set_current_handler h2 c1 in
            if decide (cmd_type ≠ expected_type) then
              (c2, Raised (mkExc InvalidAdminClientState
                     ("Received an unexpected response... got command " +:+
                      admin_command_repr cmd_type +:+ ", expecting command " +:+
                      admin_command_repr expected_type)))
            else (c2, Returned cmd_resp)
        end
  end.

Definition ECHO_STRING : string := "ping? pong!".

(** [ping_server].  [send_echo_request] belongs to the admin command
    handler and is a parameter, as is the poller; [start_time] and
    [end_time] are the two readings of [time.time()], [float_sub] is the
    subtraction of floats and [response_str] the [%s] conversion of a
    response. *)
Definition ping_server
    (send_echo_request : string -> GearmanAdminClient -> GearmanAdminClient)
    (poll_connections_until_stopped : poller)
    (float_sub : pyfloat -> pyfloat -> pyfloat)
    (response_str : parsed_response -> string)
    (start_time end_time : pyfloat) (c : GearmanAdminClient)
    : GearmanAdminClient * outcome pyfloat :=
  let c1 := send_echo_request ECHO_STRING c in
  match wait_until_server_responds poll_connections_until_stopped
          GEARMAN_COMMAND_ECHO_REQ c1 with
  | (c2, Raised e) => (c2, Raised e)
  | (c2, Returned server_response) =>
      if decide (server_response ≠ ResponseText ECHO_STRING) then
        (c2, Raised (mkExc InvalidAdminClientState
               ("Echo string mismatch: got " +:+ response_str server_response +:+
                ", expected " +:+ ECHO_STRING)))
      else
        let elapsed_time := float_sub end_time start_time in
        (c2, Returned elapsed_time)
  end.

End WithRuntime.

(** ** What the claims speak about *)

Section Vocabulary.
Context `{RT : PyRuntime} `{ENC : DataEncoder}.

(** The lifecycle PENDING -> QUEUED -> {COMPLETE, FAILED}: one call either
    leaves a state where it is or moves it along one arrow. *)
Definition allowed_transition (a b : JobState) : Prop :=
  a = b \/
  (a = JOB_PENDING /\ b = JOB_QUEUED) \/
  (a = JOB_QUEUED /\ (b = JOB_COMPLETE \/ b = JOB_FAILED)).

(** How far along the lifecycle a state is. *)
Definition lifecycle_rank (s : JobState) : nat :=
  match s with
  | JOB_PENDING => 0
  | JOB_QUEUED => 1
  | JOB_COMPLETE | JOB_FAILED => 2
  end.

Definition terminal (s : JobState) : Prop := s = JOB_COMPLETE \/ s = JOB_FAILED.

(** The state of the request object [ref] as the handler sees it. *)
Definition state_of (h : ClientHandler) (ref : nat) : JobState :=
  state (request_objects h ref).

(** The job handle named by an inbound WORK_* command, the ones served by
    the [recv_work_*] callbacks. *)
Definition work_event_handle (ev : client_event) : option string :=
  match ev with
  | WORK_DATA jh _ | WORK_WARNING jh _ | WORK_STATUS jh _ _
  | WORK_COMPLETE jh _ | WORK_FAIL jh | WORK_EXCEPTION jh _ => Some jh
  | JOB_CREATED _ | STATUS_RES _ _ _ _ _ _ => None
  end.

(** What JOB_CREATED with handle [h] makes of a pending request. *)
Definition accepted (job_handle : string) (r : JobRequest) : JobRequest :=
  set_state JOB_QUEUED (set_job (set_handle (Some job_handle) (job r)) r).

(** The commands the worker has queued on the connection of the command
    handler [ref]. *)
Definition sent_by (w : GearmanWorker) (ref : nat) : list command :=
  handler_sent (handler_objects w ref).

Definition work_complete (current_job : GearmanJob) (data : string) : command :=
  mkCommand GEARMAN_COMMAND_WORK_COMPLETE
    [("job_handle", handle current_job); ("data", Some (encode_data data))].
Definition work_fail (current_job : GearmanJob) : command :=
  mkCommand GEARMAN_COMMAND_WORK_FAIL [("job_handle", handle current_job)].
Definition work_exception (current_job : GearmanJob) (data : string) : command :=
  mkCommand GEARMAN_COMMAND_WORK_EXCEPTION
    [("job_handle", handle current_job); ("data", Some (encode_data data))].

(** The command [send_job_request] sends for a request. *)
Definition submit_command (r : JobRequest) : command :=
  mkCommand (submit_cmd_for_background_priority (background r) (priority r))
    [("task", Some (task (job r))); ("unique", Some (unique (job r)));
     ("data", Some (encode_data (data (job r))))].

(** The handle map is a faithful index: a request filed under a handle
    carries that handle in its job and has left the PENDING state. *)
Definition handle_index_consistent (h : ClientHandler) : Prop :=
  forall jh r, handle_to_request_map h !! jh = Some r ->
    handle (job (request_objects h r)) = Some jh /\ state_of h r <> JOB_PENDING.

(** The two handler maps of the worker name each other. *)
Definition handler_maps_agree (w : GearmanWorker) : Prop :=
  forall command_handler current_connection,
    handler_to_connection_map w !! command_handler = Some current_connection <->
    connection_to_handler_map w !! current_connection = Some command_handler.



End Vocabulary.

(** ** A runtime and a payload hook for the examples

    Floats are the whole numbers written in decimal digits, kept in
    millionths so that [%f] prints them with its six decimals; [float]
    raises [ValueError] on any other string.  The examples below only use
    strings on which this agrees with Python. *)

Fixpoint digits_value (s : string) (acc : Z) : option Z :=
  match s with
  | EmptyString => Some acc
  | String c rest =>
      let n := Z.of_nat (Ascii.nat_of_ascii c) in
      if bool_decide (48 ≤ n ≤ 57)%Z
      then digits_value rest (10 * acc + (n - 48))%Z
      else None
  end.

Definition example_float (s : string) : outcome Z :=
  match s with
  | EmptyString => Raised (mkExc ValueError "empty string for float()")
  | _ =>
      match digits_value s 0%Z with
      | Some n => Returned (n * 1000000)%Z
      | None => Raised (mkExc ValueError ("could not convert string to float: " +:+ s))
      end
  end.

Definition pad6 (s : string) : string :=
  String.concat "" (replicate (6 - String.length s) "0") +:+ s.

Definition example_format_f (x : Z) : string :=
  (if bool_decide (x < 0)%Z then "-" else "") +:+
  pretty (Z.abs x / 1000000)%Z +:+ "." +:+ pad6 (pretty (Z.abs x mod 1000000)%Z).

Definition example_state_str (s : JobState) : string :=
  match s with
  | JOB_PENDING => "PENDING"
  | JOB_QUEUED => "QUEUED"
  | JOB_COMPLETE => "COMPLETE"
  | JOB_FAILED => "FAILED"
  end.

Definition example_admin_command_repr (c : admin_command_type) : string :=
  match c with
  | GEARMAN_SERVER_COMMAND_STATUS => "'status'"
  | GEARMAN_SERVER_COMMAND_VERSION => "'version'"
  | GEARMAN_SERVER_COMMAND_WORKERS => "'workers'"
  | GEARMAN_SERVER_COMMAND_MAXQUEUE => "'maxqueue'"
  | GEARMAN_SERVER_COMMAND_SHUTDOWN => "'shutdown'"
  | GEARMAN_COMMAND_ECHO_REQ => "16"
  | GEARMAN_COMMAND_ECHO_RES => "17"
  end.

Definition example_submit_cmd (background : bool) (priority : Priority)
    : command_type :=
  match background, priority with
  | false, PRIORITY_NORMAL => GEARMAN_COMMAND_SUBMIT_JOB
  | true, PRIORITY_NORMAL => GEARMAN_COMMAND_SUBMIT_JOB_BG
  | false, PRIORITY_HIGH => GEARMAN_COMMAND_SUBMIT_JOB_HIGH
  | true, PRIORITY_HIGH => GEARMAN_COMMAND_SUBMIT_JOB_HIGH_BG
  | false, PRIORITY_LOW => GEARMAN_COMMAND_SUBMIT_JOB_LOW
  | true, PRIORITY_LOW => GEARMAN_COMMAND_SUBMIT_JOB_LOW_BG
  end.

Definition example_runtime : PyRuntime := {|
  pyfloat := Z;
  float := example_float;
  format_f := example_format_f;
  state_repr := fun s => "'" +:+ example_state_str s +:+ "'";
  state_str := example_state_str;
  admin_command_repr := example_admin_command_repr;
  object_repr := fun n => "<object " +:+ pretty n +:+ ">";
  submit_cmd_for_background_priority := example_submit_cmd
|}.

Definition identity_encoder : DataEncoder := {|
  encode_data := fun d => d;
  decode_data := fun d => d
|}.

(** A request as [submit_job] creates it: PENDING, no handle, no updates. *)
Definition new_request (task unique data : string)
    : @JobRequest example_runtime :=
  mkRequest (mkJob 0 None task unique data) JOB_PENDING false PRIORITY_NORMAL
    [] [] [] None None None.

(** A client handler that has sent nothing, over a store in which the
    objects 0, 1 and 2 are three fresh requests. *)
Definition fresh_client : @ClientHandler example_runtime :=
  mkClient
    (fun ref => match ref with
                | 0 => new_request "reverse" "u0" "abc"
                | 1 => new_request "reverse" "u1" "def"
                | _ => new_request "upper" "u2" "ghi"
                end)
    [] ∅ [].

(** The same handler after request 0 was submitted and the server
    acknowledged it with the handle H:1. *)
Definition queued_client : @ClientHandler example_runtime :=
  (@recv_job_created example_runtime "H:1"
     (@send_job_request example_runtime identity_encoder 0 fresh_client)).1.

(** A worker with three tasks and two command handlers, 1 and 2, but only
    handler 1 registered (for connection 10): handler 2 stands for the
    handler of a connection the manager has dropped. *)
Definition example_worker : GearmanWorker :=
  _update_initial_state
    (mkWorker {[ "reverse" := 0; "exit" := 1; "broken" := 2 ]} None None
       (mkInitialState [] None) {[ 10 := 1 ]} {[ 1 := 10 ]}
       (fun _ => mkWorkerHandler [] None [])).

(** The callbacks behind the three tasks: object 0 sends the reversed data
    as a WORK_DATA update and returns it, object 1 calls [sys.exit()],
    every other one raises an application exception. *)
Definition example_call : @callback_env :=
  fun function_callback current_job w =>
    match function_callback with
    | 0 =>
        ((send_job_data (RT:=example_runtime) (ENC:=identity_encoder) current_job
            (String.rev (data current_job)) w).1,
         Returned (String.rev (data current_job)))
    | 1 => (w, Raised (mkExc SystemExit "0"))
    | _ => (w, Raised (mkExc (ApplicationError "RuntimeError") "broken"))
    end.

Definition example_job (task : string) : GearmanJob :=
  mkJob 10 (Some "H:1") task "" "abc".

(** An admin client with a timeout of 0.1 seconds that has asked for the
    server status and has no response yet. *)
Definition example_admin_client : @GearmanAdminClient example_runtime :=
  @mkAdminClient example_runtime 100000%Z 10
    (mkAdminHandler [GEARMAN_SERVER_COMMAND_STATUS] false []).

(** A poll during which the server stays silent. *)
Definition silent_poll : @poller example_runtime :=
  fun connections continue timeout c => (c, Returned true).

(** A poll during which one complete response of kind [kind] arrives: the
    handler queues it and raises [response_ready]. *)
Definition answering_poll (kind : admin_command_type) (resp : parsed_response)
    : @poller example_runtime :=
  fun connections continue timeout c =>
    (set_current_handler
       (mkAdminHandler (pending_commands (current_handler c)) true
          (response_queue (current_handler c) ++ [(kind, resp)])) c,
     Returned true).

(** A client on which request 0 was submitted twice and acknowledged once:
    it is QUEUED under H:1 and still waits at the head of the deque. *)
Definition resubmitted_client : @ClientHandler example_runtime :=
  (@recv_job_created example_runtime "H:1"
     (@send_job_requests example_runtime identity_encoder [0; 0] fresh_client)).1.

(** The example worker with the job lock held by handler 1. *)
Definition locked_worker : GearmanWorker := set_holder (Some 1) example_worker.

(** A stand-in for the cleanup of the base manager: the failed connection
    and its handler leave the two handler maps. *)
Definition example_super_handle_error (current_connection : nat) (w : GearmanWorker)
    : GearmanWorker :=
  mkWorker (worker_abilities w) (worker_client_id w)
    (command_handler_holding_job_lock w) (handler_initial_state w)
    (delete current_connection (connection_to_handler_map w))
    (match connection_to_handler_map w !! current_connection with
     | Some current_handler => delete current_handler (handler_to_connection_map w)
     | None => handler_to_connection_map w
     end)
    (handler_objects w).

(** An echo request as the admin handler notes it: one more expected
    response, none ready. *)
Definition example_send_echo_request (text : string)
    (c : @GearmanAdminClient example_runtime) : @GearmanAdminClient example_runtime :=
  set_current_handler
    (mkAdminHandler (pending_commands (current_handler c) ++ [GEARMAN_COMMAND_ECHO_REQ])
       false (response_queue (current_handler c))) c.

Definition example_response_str (r : parsed_response) : string :=
  match r with
  | ResponseText text => text
  | ResponseRows rows => "[" +:+ pretty (length rows) +:+ " rows]"
  end.

(** * Properties of the client command handler *)

Section ClientProperties.
Context `{RT : PyRuntime} `{ENC : DataEncoder}.

Lemma request_objects_update (ref : nat) (f : JobRequest -> JobRequest)
    (h : ClientHandler) (r : nat) :
  request_objects (update_request ref f h) r =
  if decide (ref = r) then f (request_objects h ref) else request_objects h r.
Proof. reflexivity. Qed.

Lemma assert_request_state_None (req : JobRequest) (expected : JobState) :
  _assert_request_state req expected = None <-> state req = expected.
Proof.
  unfold _assert_request_state. case_decide; split; intros; congruence.
Qed.

Lemma assert_request_state_raises (req : JobRequest) (expected : JobState) (e : PyExc) :
  _assert_request_state req expected = Some e ->
  state req <> expected /\ exc_type e = InvalidClientState.
Proof.
  unfold _assert_request_state. case_decide; [discriminate|].
  intros [= <-]. split; [assumption | reflexivity].
Qed.

Lemma lookup_queued_Returned (job_handle : string) (h : ClientHandler) (ref : nat) :
  lookup_queued job_handle h = Returned ref <->
  handle_to_request_map h !! job_handle = Some ref /\ state_of h ref = JOB_QUEUED.
Proof.
  unfold lookup_queued, state_of, _assert_request_state. split.
  - destruct (handle_to_request_map h !! job_handle) as [r|]; [|discriminate].
    case_decide; [|discriminate]. intros [= ->]. split; [reflexivity | assumption].
  - intros [-> Hst]. rewrite decide_True by assumption. reflexivity.
Qed.

Lemma lookup_queued_unknown (job_handle : string) (h : ClientHandler) :
  handle_to_request_map h !! job_handle = None ->
  lookup_queued job_handle h = Raised (mkExc KeyError job_handle).
Proof. unfold lookup_queued. intros ->. reflexivity. Qed.

Lemma lookup_queued_wrong_state (job_handle : string) (h : ClientHandler) (ref : nat) :
  handle_to_request_map h !! job_handle = Some ref ->
  state_of h ref <> JOB_QUEUED ->
  exists e, lookup_queued job_handle h = Raised e /\ exc_type e = InvalidClientState.
Proof.
  unfold lookup_queued, state_of. intros -> Hne.
  destruct (_assert_request_state (request_objects h ref) JOB_QUEUED) as [e|] eqn:E.
  - exists e. split; [reflexivity|]. apply assert_request_state_raises in E. tauto.
  - apply assert_request_state_None in E. contradiction.
Qed.

Lemma allowed_transition_refl (s : JobState) : allowed_transition s s.
Proof. left. reflexivity. Qed.

Lemma allowed_transition_rank (a b : JobState) :
  allowed_transition a b -> lifecycle_rank a <= lifecycle_rank b.
Proof.
  intros [->|[[-> ->]|[-> [->| ->]]]]; simpl; lia.
Qed.

Lemma allowed_transition_terminal (a b : JobState) :
  allowed_transition a b -> terminal a -> b = a.
Proof.
  unfold terminal.
  intros [->|[[-> ->]|[-> [->| ->]]]] [?|?]; congruence.
Qed.

(** Rewriting one object of the store moves the state of [r] only if [r]
    is that object. *)
Lemma state_of_update (ref : nat) (f : JobRequest -> JobRequest)
    (h : ClientHandler) (r : nat) :
  state_of (update_request ref f h) r =
  if decide (ref = r) then state (f (request_objects h ref)) else state_of h r.
Proof. unfold state_of. rewrite request_objects_update. case_decide; reflexivity. Qed.

(** One inbound command moves the state of any request by at most one
    arrow of the lifecycle. *)
Lemma recv_transition (ev : client_event) (h : ClientHandler) (r : nat) :
  allowed_transition (state_of h r) (state_of (recv ev h).1 r).
Proof.
  destruct ev; simpl.
  - unfold recv_job_created.
    destruct (requests_awaiting_handles h) as [|cur rest];
      [apply allowed_transition_refl|].
    destruct (_assert_request_state _ JOB_PENDING) as [e|] eqn:E; simpl;
      [apply allowed_transition_refl|].
    apply assert_request_state_None in E. simpl in E.
    unfold state_of at 2. simpl. unfold insert, fn_insert.
    destruct (decide (cur = r)) as [->|]; simpl.
    + right. left. split; [exact E | reflexivity].
    + apply allowed_transition_refl.
  - unfold recv_work_data.
    destruct (lookup_queued job_handle h) as [cur|e] eqn:E; simpl;
      [|apply allowed_transition_refl].
    rewrite state_of_update. case_decide; subst; apply allowed_transition_refl.
  - unfold recv_work_warning.
    destruct (lookup_queued job_handle h) as [cur|e] eqn:E; simpl;
      [|apply allowed_transition_refl].
    rewrite state_of_update. case_decide; subst; apply allowed_transition_refl.
  - unfold recv_work_status.
    destruct (lookup_queued job_handle h) as [cur|e] eqn:E; simpl;
      [|apply allowed_transition_refl].
    destruct (float numerator0); simpl; [|apply allowed_transition_refl].
    destruct (float denominator0); simpl; [|apply allowed_transition_refl].
    rewrite state_of_update. case_decide; subst; apply allowed_transition_refl.
  - unfold recv_work_complete.
    destruct (lookup_queued job_handle h) as [cur|e] eqn:E; simpl;
      [|apply allowed_transition_refl].
    apply lookup_queued_Returned in E as [_ Hq].
    rewrite state_of_update. case_decide; subst; simpl.
    + right. right. split; [exact Hq | left; reflexivity].
    + rewrite state_of_update. case_decide; [congruence|].
      apply allowed_transition_refl.
  - unfold recv_work_fail.
    destruct (lookup_queued job_handle h) as [cur|e] eqn:E; simpl;
      [|apply allowed_transition_refl].
    apply lookup_queued_Returned in E as [_ Hq].
    rewrite state_of_update. case_decide; subst; simpl.
    + right. right. split; [exact Hq | right; reflexivity].
    + apply allowed_transition_refl.
  - unfold recv_work_exception.
    destruct (lookup_queued job_handle h) as [cur|e] eqn:E; simpl;
      [|apply allowed_transition_refl].
    rewrite state_of_update. case_decide; subst; apply allowed_transition_refl.
  - unfold recv_status_res.
    destruct (lookup_queued job_handle h) as [cur|e] eqn:E; simpl;
      [|apply allowed_transition_refl].
    destruct (float numerator0); simpl; [|apply allowed_transition_refl].
    destruct (float denominator0); simpl; [|apply allowed_transition_refl].
    rewrite state_of_update. case_decide; subst; apply allowed_transition_refl.
Qed.

Lemma recv_all_cons (ev : client_event) (evs : list client_event) (h : ClientHandler) :
  recv_all (ev :: evs) h =
  ((recv_all evs (recv ev h).1).1, (recv ev h).2 :: (recv_all evs (recv ev h).1).2).
Proof.
  simpl. destruct (recv ev h) as [h1 o]. simpl.
  destruct (recv_all evs h1) as [h2 os]. reflexivity.
Qed.

Lemma recv_all_rank (evs : list client_event) (h : ClientHandler) (r : nat) :
  lifecycle_rank (state_of h r) <= lifecycle_rank (state_of (recv_all evs h).1 r).
Proof.
  revert h. induction evs as [|ev evs IH]; intros h; [simpl; lia|].
  rewrite recv_all_cons. simpl.
  pose proof (allowed_transition_rank _ _ (recv_transition ev h r)).
  specialize (IH (recv ev h).1). lia.
Qed.

Lemma recv_all_terminal (evs : list client_event) (h : ClientHandler) (r : nat) :
  terminal (state_of h r) -> state_of (recv_all evs h).1 r = state_of h r.
Proof.
  revert h. induction evs as [|ev evs IH]; intros h Ht; [reflexivity|].
  rewrite recv_all_cons. simpl.
  pose proof (allowed_transition_terminal _ _ (recv_transition ev h r) Ht) as Hstep.
  rewrite IH; rewrite Hstep; [reflexivity | exact Ht].
Qed.

(** A [recv_work_*] callback whose request is not QUEUED raises
    InvalidClientState and changes nothing. *)
Lemma recv_work_not_queued (ev : client_event) (job_handle : string)
    (h : ClientHandler) (ref : nat) :
  work_event_handle ev = Some job_handle ->
  handle_to_request_map h !! job_handle = Some ref ->
  state_of h ref <> JOB_QUEUED ->
  exists e, recv ev h = (h, Raised e) /\ exc_type e = InvalidClientState.
Proof.
  intros Hev Hmap Hst.
  destruct (lookup_queued_wrong_state _ _ _ Hmap Hst) as (e & He & Hty).
  exists e. split; [|exact Hty].
  destruct ev; simpl in Hev; try discriminate; injection Hev as ->; simpl;
    [unfold recv_work_data | unfold recv_work_warning | unfold recv_work_status
    | unfold recv_work_complete | unfold recv_work_fail | unfold recv_work_exception];
    rewrite He; reflexivity.
Qed.

(** C2. State monotonicity of the client: whatever inbound commands arrive
    and in whatever order, each call moves the state of a request by at
    most one arrow of PENDING -> QUEUED -> {COMPLETE, FAILED}; over a
    sequence of calls the state never moves backward; a COMPLETE or FAILED
    request keeps its state; and a [recv_work_*] call for a request that
    is not QUEUED raises InvalidClientState and leaves everything as it
    was. *)
Theorem C2_state_monotonicity (h : ClientHandler) (r : nat) :
  (forall ev, allowed_transition (state_of h r) (state_of (recv ev h).1 r)) /\
  (forall evs,
      lifecycle_rank (state_of h r) <= lifecycle_rank (state_of (recv_all evs h).1 r)) /\
  (forall evs, terminal (state_of h r) ->
      state_of (recv_all evs h).1 r = state_of h r) /\
  (forall ev job_handle,
      work_event_handle ev = Some job_handle ->
      handle_to_request_map h !! job_handle = Some r ->
      state_of h r <> JOB_QUEUED ->
      exists e, recv ev h = (h, Raised e) /\ exc_type e = InvalidClientState).
Proof.
  split; [|split; [|split]].
  - intros ev. apply recv_transition.
  - intros evs. apply recv_all_rank.
  - intros evs. apply recv_all_terminal.
  - intros ev jh. apply recv_work_not_queued.
Qed.

(** *** Submission order *)

Lemma send_job_request_frame (r : nat) (h : ClientHandler) :
  requests_awaiting_handles (send_job_request r h) = requests_awaiting_handles h ++ [r] /\
  request_objects (send_job_request r h) = request_objects h /\
  handle_to_request_map (send_job_request r h) = handle_to_request_map h.
Proof. repeat split. Qed.

Lemma send_job_requests_frame (reqs : list nat) (h : ClientHandler) :
  requests_awaiting_handles (send_job_requests reqs h) =
    requests_awaiting_handles h ++ reqs /\
  request_objects (send_job_requests reqs h) = request_objects h /\
  handle_to_request_map (send_job_requests reqs h) = handle_to_request_map h.
Proof.
  revert h. induction reqs as [|r reqs IH]; intros h.
  - simpl. rewrite app_nil_r. repeat split.
  - unfold send_job_requests in *. simpl.
    destruct (IH (send_job_request r h)) as (Hq & Ho & Hm).
    rewrite Hq, Ho, Hm. simpl. rewrite <- app_assoc. repeat split.
Qed.

(** JOB_CREATED on a handler whose oldest waiting request is PENDING. *)
Lemma recv_job_created_pending (job_handle : string) (h : ClientHandler)
    (r : nat) (rest : list nat) :
  requests_awaiting_handles h = r :: rest ->
  state_of h r = JOB_PENDING ->
  let after := (recv_job_created job_handle h).1 in
  (recv_job_created job_handle h).2 = Returned true /\
  requests_awaiting_handles after = rest /\
  request_objects after r = accepted job_handle (request_objects h r) /\
  (forall r', r' <> r -> request_objects after r' = request_objects h r') /\
  handle_to_request_map after = <[job_handle := r]> (handle_to_request_map h) /\
  sent_commands after = sent_commands h.
Proof.
  intros Hq Hst. unfold recv_job_created. rewrite Hq.
  destruct (_assert_request_state _ JOB_PENDING) as [e|] eqn:E.
  { apply assert_request_state_raises in E as [E _]. simpl in E.
    unfold state_of in Hst. contradiction. }
  cbn [fst snd]. split; [reflexivity|]. split; [reflexivity|].
  split; [|split; [|split; reflexivity]].
  - simpl. unfold insert, fn_insert. rewrite !decide_True by reflexivity.
    reflexivity.
  - intros r' Hne. simpl. unfold insert, fn_insert.
    rewrite !decide_False by congruence. reflexivity.
Qed.

(** A run of JOB_CREATED commands against a deque that starts with as many
    distinct PENDING requests: they are acknowledged front to back. *)
Lemma recv_created_run (reqs : list nat) :
  forall (handles : list string) (h : ClientHandler) (rest : list nat),
  length handles = length reqs ->
  requests_awaiting_handles h = reqs ++ rest ->
  NoDup reqs ->
  (forall r, r ∈ reqs -> state_of h r = JOB_PENDING) ->
  let final := recv_all (JOB_CREATED <$> handles) h in
  final.2 = replicate (length reqs) (Returned true) /\
  requests_awaiting_handles final.1 = rest /\
  (forall r, r ∉ reqs -> request_objects final.1 r = request_objects h r) /\
  (forall k r jh, reqs !! k = Some r -> handles !! k = Some jh ->
     request_objects final.1 r = accepted jh (request_objects h r)).
Proof.
  induction reqs as [|r reqs IH]; intros handles h rest Hlen Hq Hnd Hpend.
  - destruct handles; [|discriminate]. simpl.
    repeat split; [exact Hq | intros k r jh Hk; discriminate].
  - destruct handles as [|jh handles]; [discriminate|].
    injection Hlen as Hlen. apply NoDup_cons in Hnd as [Hnotin Hnd].
    rewrite fmap_cons, recv_all_cons. cbn [fst snd recv].
    destruct (recv_job_created_pending jh h r (reqs ++ rest) Hq)
      as (Hres & Hq1 & Hobj & Hframe & _ & _).
    { apply Hpend. left. }
    set (h1 := (recv_job_created jh h).1) in *.
    destruct (IH handles h1 rest Hlen Hq1 Hnd) as (Hos & Hq2 & Hout & Hin).
    { intros r' Hr'. unfold state_of. rewrite Hframe.
      - apply Hpend. right. exact Hr'.
      - intros ->. contradiction. }
    split; [|split; [|split]].
    + rewrite Hres, Hos. reflexivity.
    + exact Hq2.
    + intros r' Hr'. rewrite Hout.
      * apply Hframe. intros ->. apply Hr'. left.
      * intros Hr''. apply Hr'. right. exact Hr''.
    + intros [|k] r' jh' Hk Hk'; simpl in Hk, Hk'.
      * injection Hk as <-. injection Hk' as <-.
        rewrite Hout by exact Hnotin. exact Hobj.
      * rewrite (Hin k r' jh' Hk Hk'). rewrite Hframe; [reflexivity|].
        intros ->. apply Hnotin. apply list_elem_of_lookup. eauto.
Qed.

(** C1. Submit ordering: after N requests (distinct objects, all PENDING)
    are submitted on a handler with nothing waiting, N JOB_CREATED commands
    acknowledge them in submission order.  The k-th call finds the k-th
    submitted request at the head of the deque and still PENDING, pops it,
    gives it the k-th handle, moves it to QUEUED and files it under that
    handle; all N calls return True and leave the deque empty.  On a
    handler with nothing waiting, [recv_job_created] raises
    InvalidClientState. *)
Theorem C1_submit_ordering (h : ClientHandler) (reqs : list nat)
    (handles : list string) :
  requests_awaiting_handles h = [] ->
  NoDup reqs ->
  (forall r, r ∈ reqs -> state_of h r = JOB_PENDING) ->
  length handles = length reqs ->
  let submitted := send_job_requests reqs h in
  requests_awaiting_handles submitted = reqs /\
  (forall k r jh, reqs !! k = Some r -> handles !! k = Some jh ->
     let before := (recv_all (JOB_CREATED <$> take k handles) submitted).1 in
     let after := (recv_job_created jh before).1 in
     requests_awaiting_handles before = r :: drop (S k) reqs /\
     state_of before r = JOB_PENDING /\
     (recv_job_created jh before).2 = Returned true /\
     requests_awaiting_handles after = drop (S k) reqs /\
     request_objects after r = accepted jh (request_objects h r) /\
     handle (job (request_objects after r)) = Some jh /\
     state_of after r = JOB_QUEUED /\
     handle_to_request_map after !! jh = Some r) /\
  (let final := recv_all (JOB_CREATED <$> handles) submitted in
   final.2 = replicate (length reqs) (Returned true) /\
   requests_awaiting_handles final.1 = [] /\
   forall k r jh, reqs !! k = Some r -> handles !! k = Some jh ->
     request_objects final.1 r = accepted jh (request_objects h r)) /\
  (forall jh (idle : ClientHandler),
     requests_awaiting_handles idle = [] ->
     recv_job_created jh idle =
       (idle, Raised (mkExc InvalidClientState
                        "Received a job_handle with no pending requests"))).
Proof.
  intros Hempty Hnd Hpend Hlen submitted.
  destruct (send_job_requests_frame reqs h) as (Hq & Ho & Hm).
  fold submitted in Hq, Ho, Hm. rewrite Hempty in Hq. simpl in Hq.
  assert (Hpend' : forall r, r ∈ reqs -> state_of submitted r = JOB_PENDING).
  { intros r Hr. unfold state_of. rewrite Ho. apply Hpend. exact Hr. }
  split; [exact Hq|]. split; [|split].
  - intros k r jh Hk Hk' before after.
    destruct (recv_created_run (take k reqs) (take k handles) submitted (drop k reqs))
      as (_ & Hqb & Hout & _).
    { rewrite !length_take. lia. }
    { rewrite take_drop. exact Hq. }
    { rewrite <- (take_drop k reqs) in Hnd. apply NoDup_app in Hnd. tauto. }
    { intros r' Hr'. apply Hpend'. apply elem_of_take in Hr' as (i & Hi & _).
      apply list_elem_of_lookup. eauto. }
    fold before in Hqb, Hout.
    assert (Hdrop : drop k reqs = r :: drop (S k) reqs).
    { apply drop_S. exact Hk. }
    rewrite Hdrop in Hqb.
    assert (Hfresh : r ∉ take k reqs).
    { intros Hin. apply elem_of_take in Hin as (i & Hi & Hlt).
      pose proof (NoDup_lookup _ _ _ _ Hnd Hi Hk). lia. }
    assert (Hstb : state_of before r = JOB_PENDING).
    { unfold state_of. rewrite Hout by exact Hfresh. rewrite Ho.
      apply Hpend. apply list_elem_of_lookup. eauto. }
    destruct (recv_job_created_pending jh before r (drop (S k) reqs) Hqb Hstb)
      as (Hres & Hqa & Hobj & _ & Hmap & _).
    fold after in Hqa, Hobj, Hmap.
    assert (Hacc : request_objects after r = accepted jh (request_objects h r)).
    { rewrite Hobj, Hout by exact Hfresh. rewrite Ho. reflexivity. }
    repeat split; try assumption.
    + rewrite Hacc. reflexivity.
    + unfold state_of. rewrite Hacc. reflexivity.
    + rewrite Hmap. apply lookup_insert_eq.
  - intros final.
    destruct (recv_created_run reqs handles submitted []) as (Hos & Hqf & _ & Hin);
      try assumption.
    { rewrite app_nil_r. exact Hq. }
    fold final in Hos, Hqf, Hin.
    repeat split; try assumption.
    intros k r jh Hk Hk'. rewrite (Hin k r jh Hk Hk'), Ho. reflexivity.
  - intros jh idle Hidle. unfold recv_job_created. rewrite Hidle. reflexivity.
Qed.

(** *** Work updates *)

(** C3, as the code has it.  A WORK_DATA, WORK_WARNING or WORK_STATUS for a
    job handle that is not in [handle_to_request_map] fails with the
    KeyError of the dictionary lookup and changes nothing.  For a handle
    whose request is QUEUED, [recv_work_data] appends the decoded data to
    [data_updates], [recv_work_warning] appends it to [warning_updates],
    and [recv_work_status] appends the pair of floats to [status_updates]
    when [float] accepts both strings; the request stays QUEUED. *)
Theorem C3_work_updates (h : ClientHandler) (job_handle : string) :
  (handle_to_request_map h !! job_handle = None ->
   forall data numerator denominator,
     recv_work_data job_handle data h = (h, Raised (mkExc KeyError job_handle)) /\
     recv_work_warning job_handle data h = (h, Raised (mkExc KeyError job_handle)) /\
     recv_work_status job_handle numerator denominator h =
       (h, Raised (mkExc KeyError job_handle))) /\
  (forall r, handle_to_request_map h !! job_handle = Some r ->
   state_of h r = JOB_QUEUED ->
   (forall data,
      let after := (recv_work_data job_handle data h).1 in
      (recv_work_data job_handle data h).2 = Returned true /\
      data_updates (request_objects after r) =
        data_updates (request_objects h r) ++ [decode_data data] /\
      state_of after r = JOB_QUEUED) /\
   (forall data,
      let after := (recv_work_warning job_handle data h).1 in
      (recv_work_warning job_handle data h).2 = Returned true /\
      warning_updates (request_objects after r) =
        warning_updates (request_objects h r) ++ [decode_data data] /\
      state_of after r = JOB_QUEUED) /\
   (forall numerator denominator n d,
      float numerator = Returned n ->
      float denominator = Returned d ->
      let after := (recv_work_status job_handle numerator denominator h).1 in
      (recv_work_status job_handle numerator denominator h).2 = Returned true /\
      status_updates (request_objects after r) =
        status_updates (request_objects h r) ++ [(n, d)] /\
      state_of after r = JOB_QUEUED)).
Proof.
  split.
  - intros Hnone data numerator denominator.
    unfold recv_work_data, recv_work_warning, recv_work_status.
    rewrite (lookup_queued_unknown _ _ Hnone). repeat split.
  - intros r Hmap Hq.
    assert (Hl : lookup_queued job_handle h = Returned r).
    { apply lookup_queued_Returned. split; assumption. }
    split; [|split].
    + intros data after. subst after. unfold recv_work_data. rewrite Hl.
      unfold state_of in *. simpl. unfold insert, fn_insert.
      rewrite decide_True by reflexivity. simpl. repeat split. exact Hq.
    + intros data after. subst after. unfold recv_work_warning. rewrite Hl.
      unfold state_of in *. simpl. unfold insert, fn_insert.
      rewrite decide_True by reflexivity. simpl. repeat split. exact Hq.
    + intros numerator denominator n d Hn Hd after. subst after.
      unfold recv_work_status. rewrite Hl, Hn, Hd.
      unfold state_of in *. simpl. unfold insert, fn_insert.
      rewrite decide_True by reflexivity. simpl. repeat split. exact Hq.
Qed.

(** C4. WORK_EXCEPTION for a QUEUED request stores the decoded data in the
    request's [exception] field and changes nothing else: the call returns
    True; the request keeps its state QUEUED, its job, result and the
    three update sequences; every other request object, the deque of
    waiting requests, the handle map and the commands sent are as before. *)
Theorem C4_work_exception_frame (h : ClientHandler) (job_handle data : string)
    (r : nat) :
  handle_to_request_map h !! job_handle = Some r ->
  state_of h r = JOB_QUEUED ->
  let after := (recv_work_exception job_handle data h).1 in
  (recv_work_exception job_handle data h).2 = Returned true /\
  request_objects after r =
    set_exception (Some (decode_data data)) (request_objects h r) /\
  exception (request_objects after r) = Some (decode_data data) /\
  state_of after r = JOB_QUEUED /\
  job (request_objects after r) = job (request_objects h r) /\
  result (request_objects after r) = result (request_objects h r) /\
  data_updates (request_objects after r) = data_updates (request_objects h r) /\
  warning_updates (request_objects after r) = warning_updates (request_objects h r) /\
  status_updates (request_objects after r) = status_updates (request_objects h r) /\
  server_status (request_objects after r) = server_status (request_objects h r) /\
  (forall r', r' <> r -> request_objects after r' = request_objects h r') /\
  requests_awaiting_handles after = requests_awaiting_handles h /\
  handle_to_request_map after = handle_to_request_map h /\
  sent_commands after = sent_commands h.
Proof.
  intros Hmap Hq after. subst after.
  assert (Hl : lookup_queued job_handle h = Returned r).
  { apply lookup_queued_Returned. split; assumption. }
  unfold recv_work_exception. rewrite Hl. unfold state_of in *. simpl.
  unfold insert, fn_insert. rewrite decide_True by reflexivity. simpl.
  repeat split; try assumption.
  intros r' Hne. rewrite decide_False by congruence. reflexivity.
Qed.

End ClientProperties.

(** * Properties of the worker *)

Section WorkerProperties.
Context `{RT : PyRuntime} `{ENC : DataEncoder}.

Lemma foldl_update_handler_frame (f : WorkerHandler -> WorkerHandler)
    (refs : list nat) (w : GearmanWorker) :
  let w' := foldl (fun acc ref => update_handler ref f acc) w refs in
  worker_abilities w' = worker_abilities w /\
  worker_client_id w' = worker_client_id w /\
  command_handler_holding_job_lock w' = command_handler_holding_job_lock w /\
  handler_initial_state w' = handler_initial_state w /\
  connection_to_handler_map w' = connection_to_handler_map w /\
  handler_to_connection_map w' = handler_to_connection_map w.
Proof.
  revert w. induction refs as [|ref refs IH]; intros w; simpl.
  - repeat split.
  - destruct (IH (update_handler ref f w)) as (H1 & H2 & H3 & H4 & H5 & H6).
    simpl in *. rewrite H1, H2, H3, H4, H5, H6. repeat split.
Qed.

Lemma for_each_handler_frame (f : WorkerHandler -> WorkerHandler) (w : GearmanWorker) :
  worker_abilities (for_each_handler f w) = worker_abilities w /\
  worker_client_id (for_each_handler f w) = worker_client_id w /\
  command_handler_holding_job_lock (for_each_handler f w) =
    command_handler_holding_job_lock w /\
  handler_initial_state (for_each_handler f w) = handler_initial_state w /\
  connection_to_handler_map (for_each_handler f w) = connection_to_handler_map w /\
  handler_to_connection_map (for_each_handler f w) = handler_to_connection_map w.
Proof. apply foldl_update_handler_frame. Qed.

Lemma unregister_task_abilities (task : string) (w : GearmanWorker) :
  worker_abilities (unregister_task task w).1 = delete task (worker_abilities w).
Proof.
  unfold unregister_task. cbn [fst].
  destruct (for_each_handler_frame
    (handler_set_abilities
       (abilities (handler_initial_state
          (_update_initial_state
             (set_worker_abilities (delete task (worker_abilities w)) w)))))
    (_update_initial_state (set_worker_abilities (delete task (worker_abilities w)) w)))
    as (-> & _). reflexivity.
Qed.

Lemma unregister_task_initial_state (task : string) (w : GearmanWorker) :
  handler_initial_state (unregister_task task w).1 =
  mkInitialState (keys (delete task (worker_abilities w))) (worker_client_id w).
Proof.
  unfold unregister_task. cbn [fst].
  destruct (for_each_handler_frame
    (handler_set_abilities
       (abilities (handler_initial_state
          (_update_initial_state
             (set_worker_abilities (delete task (worker_abilities w)) w)))))
    (_update_initial_state (set_worker_abilities (delete task (worker_abilities w)) w)))
    as (_ & _ & _ & -> & _). reflexivity.
Qed.

Lemma unregister_task_client_id (task : string) (w : GearmanWorker) :
  worker_client_id (unregister_task task w).1 = worker_client_id w.
Proof.
  unfold unregister_task. cbn [fst].
  destruct (for_each_handler_frame
    (handler_set_abilities
       (abilities (handler_initial_state
          (_update_initial_state
             (set_worker_abilities (delete task (worker_abilities w)) w)))))
    (_update_initial_state (set_worker_abilities (delete task (worker_abilities w)) w)))
    as (_ & -> & _). reflexivity.
Qed.

(** C10. [unregister_task] is total: it returns the task name whether or
    not the task was registered, and a task that was never registered
    leaves [worker_abilities] as it was.  After one call the task has no
    entry in [worker_abilities]; a second call with the same task leaves
    [worker_abilities] and [handler_initial_state] exactly as the first call
    left them. *)
Theorem C10_unregister_task_idempotent (w : GearmanWorker) (task : string) :
  let once := unregister_task task w in
  let twice := unregister_task task once.1 in
  once.2 = task /\
  twice.2 = task /\
  worker_abilities once.1 !! task = None /\
  (worker_abilities w !! task = None -> worker_abilities once.1 = worker_abilities w) /\
  worker_abilities twice.1 = worker_abilities once.1 /\
  handler_initial_state twice.1 = handler_initial_state once.1.
Proof.
  intros once twice. subst once twice.
  split; [reflexivity|]. split; [reflexivity|].
  rewrite !unregister_task_abilities, !unregister_task_initial_state,
    unregister_task_abilities, unregister_task_client_id.
  rewrite delete_delete_eq.
  split; [apply lookup_delete_eq|].
  split; [intros Hnone; apply delete_id; exact Hnone|].
  split; reflexivity.
Qed.

(** C5, as the code has it.  For a command handler that is registered in
    [handler_to_connection_map]: taking the job lock succeeds exactly when
    no handler holds it, and then the holder is that handler; giving it
    back succeeds exactly when that handler holds it, and then nobody
    holds it.  A handler that is not registered is turned away whatever the
    lock state.  Every call that fails returns False and leaves the worker,
    and with it the holder, unchanged. *)
Theorem C5_job_lock (w : GearmanWorker) (command_handler : nat) :
  (is_Some (handler_to_connection_map w !! command_handler) ->
   ((set_job_lock command_handler true w).2 = true <->
      command_handler_holding_job_lock w = None) /\
   ((set_job_lock command_handler false w).2 = true <->
      command_handler_holding_job_lock w = Some command_handler)) /\
  ((set_job_lock command_handler true w).2 = true ->
     (set_job_lock command_handler true w).1 = set_holder (Some command_handler) w) /\
  ((set_job_lock command_handler false w).2 = true ->
     (set_job_lock command_handler false w).1 = set_holder None w) /\
  (handler_to_connection_map w !! command_handler = None ->
     forall lock, set_job_lock command_handler lock w = (w, false)) /\
  (forall lock, (set_job_lock command_handler lock w).2 = false ->
     (set_job_lock command_handler lock w).1 = w).
Proof.
  assert (Hcases :
    forall lock, (set_job_lock command_handler lock w).2 = false ->
                 (set_job_lock command_handler lock w).1 = w).
  { intros lock. unfold set_job_lock.
    repeat (case_decide || case_bool_decide || destruct lock); simpl;
      try reflexivity; discriminate. }
  split; [|split; [|split; [|split]]]; [| | | |exact Hcases].
  - intros [c Hc]. unfold set_job_lock.
    destruct (decide (handler_to_connection_map w !! command_handler = None));
      [congruence|].
    destruct (command_handler_holding_job_lock w) as [holder|];
      [destruct (decide (holder = command_handler)) as [->|]|];
      repeat case_bool_decide; simpl; split; split; intros;
      try reflexivity; try congruence; try discriminate; try contradiction.
  - unfold set_job_lock.
    repeat (case_decide || case_bool_decide); simpl;
      try reflexivity; discriminate.
  - unfold set_job_lock.
    repeat (case_decide || case_bool_decide); simpl;
      try reflexivity; discriminate.
  - intros Hnone lock. unfold set_job_lock.
    rewrite decide_True by assumption. reflexivity.
Qed.

Lemma with_handler_for_job_found (current_job : GearmanJob)
    (f : WorkerHandler -> WorkerHandler) (w : GearmanWorker) (ref : nat) :
  connection_to_handler_map w !! connection current_job = Some ref ->
  with_handler_for_job current_job f w = (update_handler ref f w, Returned tt).
Proof. unfold with_handler_for_job, _get_handler_for_job. intros ->. reflexivity. Qed.

Lemma sent_by_update (ref : nat) (f : WorkerHandler -> WorkerHandler)
    (w : GearmanWorker) (r : nat) :
  sent_by (update_handler ref f w) r =
  if decide (ref = r) then handler_sent (f (handler_objects w ref)) else sent_by w r.
Proof.
  unfold sent_by, update_handler. simpl. unfold insert, fn_insert.
  case_decide; reflexivity.
Qed.

(** C8, as the code has it.  For a job whose task has a registered
    callback and whose connection still has its command handler when the
    callback is done, [on_job_execute] runs the callback once.  If it
    returns a result, the worker queues exactly one more command on that
    handler, the WORK_COMPLETE carrying the result, and returns True.  If it
    raises an exception that derives from Exception, the worker queues
    exactly one more command, the WORK_FAIL for the job, and returns False.
    An exception outside Exception is not caught: it leaves
    [on_job_execute] and nothing is sent. *)
Theorem C8_on_job_execute (call : callback_env) (w after_call : GearmanWorker)
    (current_job : GearmanJob) (function_callback ref : nat)
    (tried : outcome string) :
  worker_abilities w !! task current_job = Some function_callback ->
  call function_callback current_job w = (after_call, tried) ->
  connection_to_handler_map after_call !! connection current_job = Some ref ->
  let done := on_job_execute call current_job w in
  match tried with
  | Returned job_result =>
      done = (update_handler ref (handler_send_job_complete current_job job_result)
                after_call, Returned true) /\
      sent_by done.1 ref = sent_by after_call ref ++ [work_complete current_job job_result]
  | Raised e =>
      if derives_from_Exception (exc_type e) then
        done = (update_handler ref (handler_send_job_failure current_job) after_call,
                Returned false) /\
        sent_by done.1 ref = sent_by after_call ref ++ [work_fail current_job]
      else done = (after_call, Raised e)
  end /\
  (forall other, other <> ref -> sent_by done.1 other = sent_by after_call other).
Proof.
  intros Hcb Hcall Hconn done. subst done.
  unfold on_job_execute. rewrite Hcb, Hcall.
  destruct tried as [job_result|e].
  - unfold on_job_complete, send_job_complete.
    rewrite (with_handler_for_job_found _ _ _ _ Hconn). cbn [fst].
    split; [split; [reflexivity|]|].
    + rewrite sent_by_update, decide_True by reflexivity. reflexivity.
    + intros other Hne. rewrite sent_by_update, decide_False by congruence.
      reflexivity.
  - destruct (derives_from_Exception (exc_type e)).
    + unfold on_job_exception, send_job_failure.
      rewrite (with_handler_for_job_found _ _ _ _ Hconn). cbn [fst].
      split; [split; [reflexivity|]|].
      * rewrite sent_by_update, decide_True by reflexivity. reflexivity.
      * intros other Hne. rewrite sent_by_update, decide_False by congruence.
        reflexivity.
    + split; [reflexivity|]. intros other _. reflexivity.
Qed.

(** C9. [send_job_exception] on a job whose connection has a command
    handler queues two commands on that handler and nothing anywhere else:
    the WORK_EXCEPTION for the job and, after it, the WORK_FAIL for the job.
    On a job whose connection has no handler the lookup raises KeyError and
    nothing is sent at all.  So no call sends a WORK_EXCEPTION without the
    WORK_FAIL that follows it. *)
Theorem C9_send_job_exception (w : GearmanWorker) (current_job : GearmanJob)
    (data : string) :
  let done := send_job_exception current_job data w in
  (forall ref, connection_to_handler_map w !! connection current_job = Some ref ->
     done.2 = Returned tt /\
     sent_by done.1 ref =
       sent_by w ref ++ [work_exception current_job data; work_fail current_job] /\
     (forall other, other <> ref -> sent_by done.1 other = sent_by w other)) /\
  (connection_to_handler_map w !! connection current_job = None ->
     done = (w, Raised (mkExc KeyError (object_repr (connection current_job))))).
Proof.
  intros done. subst done. unfold send_job_exception, _get_handler_for_job.
  split.
  - intros ref ->. cbn [fst snd]. split; [reflexivity|]. split.
    + rewrite sent_by_update, decide_True by reflexivity.
      unfold update_handler. simpl. unfold insert, fn_insert.
      rewrite decide_True by reflexivity. simpl. unfold sent_by.
      rewrite <- app_assoc. reflexivity.
    + intros other Hne. rewrite !sent_by_update, !decide_False by congruence.
      reflexivity.
  - intros ->. reflexivity.
Qed.

End WorkerProperties.

(** * Properties of the admin client *)

Section AdminProperties.
Context `{RT : PyRuntime} `{ENC : DataEncoder}.
Variable poll_connections_until_stopped : poller.

(** C6. When the poll returns with a response ready and the response at
    the head of the queue is of kind X: if X is not the expected kind, the
    call raises InvalidAdminClientState and the response is no longer in
    the queue, which now holds what was behind it; if X is the expected
    kind, the call returns the parsed response, popped likewise. *)
Theorem C6_admin_kind_check (expected_type kind : admin_command_type)
    (c polled : GearmanAdminClient) (stopped : bool) (resp : parsed_response)
    (rest : list (admin_command_type * parsed_response)) :
  poll_connections_until_stopped [current_connection c] continue_while_no_response
    (admin_client_timeout c) c = (polled, Returned stopped) ->
  response_ready (current_handler polled) = true ->
  response_queue (current_handler polled) = (kind, resp) :: rest ->
  let done := wait_until_server_responds poll_connections_until_stopped expected_type c in
  response_queue (current_handler done.1) = rest /\
  (kind <> expected_type -> raises done.2 InvalidAdminClientState) /\
  (kind = expected_type -> done.2 = Returned resp).
Proof.
  intros Hpoll Hready Hqueue done. subst done.
  unfold wait_until_server_responds.
  rewrite Hpoll, Hready. simpl. unfold pop_response. rewrite Hqueue.
  case_decide as Hk; simpl.
  - split; [reflexivity|]. split; [reflexivity | contradiction].
  - split; [reflexivity|]. split; [intros Hne; contradiction | reflexivity].
Qed.

(** C7. When the poll returns and the handler's [response_ready] is still
    false, the call raises InvalidAdminClientState with the message
    'Admin client timed out after %f second(s)' filled with the timeout; it
    returns no value and pops nothing. *)
Theorem C7_admin_timeout (expected_type : admin_command_type)
    (c polled : GearmanAdminClient) (stopped : bool) :
  poll_connections_until_stopped [current_connection c] continue_while_no_response
    (admin_client_timeout c) c = (polled, Returned stopped) ->
  response_ready (current_handler polled) = false ->
  wait_until_server_responds poll_connections_until_stopped expected_type c =
    (polled, Raised (mkExc InvalidAdminClientState
               ("Admin client timed out after " +:+
                format_f (admin_client_timeout polled) +:+ " second(s)"))).
Proof.
  intros Hpoll Hready.
  unfold wait_until_server_responds.
  rewrite Hpoll, Hready. reflexivity.
Qed.

End AdminProperties.

(** * Further properties of the client command handler *)

Section ClientFurther.
Context `{RT : PyRuntime} `{ENC : DataEncoder}.

(** X1. WORK_COMPLETE for a QUEUED request stores the decoded data as its
    result and moves it to COMPLETE; the updates received so far, the
    exception and the job are kept, and nothing else in the handler
    changes. *)
Theorem X1_work_complete_frame (h : ClientHandler) (job_handle data : string)
    (r : nat) :
  handle_to_request_map h !! job_handle = Some r ->
  state_of h r = JOB_QUEUED ->
  let after := (recv_work_complete job_handle data h).1 in
  (recv_work_complete job_handle data h).2 = Returned true /\
  request_objects after r =
    set_state JOB_COMPLETE (set_result (Some (decode_data data)) (request_objects h r)) /\
  (forall r', r' <> r -> request_objects after r' = request_objects h r') /\
  requests_awaiting_handles after = requests_awaiting_handles h /\
  handle_to_request_map after = handle_to_request_map h /\
  sent_commands after = sent_commands h.
Proof.
  intros Hmap Hq after. subst after.
  assert (Hl : lookup_queued job_handle h = Returned r).
  { apply lookup_queued_Returned. split; assumption. }
  unfold recv_work_complete. rewrite Hl. cbn [fst snd].
  split; [reflexivity|]. split; [|split; [|repeat split]].
  - simpl. unfold insert, fn_insert. rewrite !decide_True by reflexivity.
    reflexivity.
  - intros r' Hne. simpl. unfold insert, fn_insert.
    rewrite !decide_False by congruence. reflexivity.
Qed.

(** X2. WORK_FAIL for a QUEUED request moves it to FAILED and touches no
    other field of it: no result is stored and the updates and exception
    received so far stay; nothing else in the handler changes. *)
Theorem X2_work_fail_frame (h : ClientHandler) (job_handle : string) (r : nat) :
  handle_to_request_map h !! job_handle = Some r ->
  state_of h r = JOB_QUEUED ->
  let after := (recv_work_fail job_handle h).1 in
  (recv_work_fail job_handle h).2 = Returned true /\
  request_objects after r = set_state JOB_FAILED (request_objects h r) /\
  result (request_objects after r) = result (request_objects h r) /\
  (forall r', r' <> r -> request_objects after r' = request_objects h r') /\
  requests_awaiting_handles after = requests_awaiting_handles h /\
  handle_to_request_map after = handle_to_request_map h /\
  sent_commands after = sent_commands h.
Proof.
  intros Hmap Hq after. subst after.
  assert (Hl : lookup_queued job_handle h = Returned r).
  { apply lookup_queued_Returned. split; assumption. }
  unfold recv_work_fail. rewrite Hl. cbn [fst snd].
  split; [reflexivity|].
  assert (Hobj : request_objects (update_request r (set_state JOB_FAILED) h) r =
                 set_state JOB_FAILED (request_objects h r)).
  { rewrite request_objects_update, decide_True by reflexivity. reflexivity. }
  split; [exact Hobj|]. split; [rewrite Hobj; reflexivity|].
  split; [|repeat split].
  intros r' Hne. rewrite request_objects_update, decide_False by congruence.
  reflexivity.
Qed.

(** X3. STATUS_RES.  For a QUEUED request and numeric fields, the request
    gets a [server_status] whose [known] and [running] are true exactly
    when the field is the string 1, with the two floats and the time of
    the call; its state stays QUEUED.  For an unknown handle the call
    raises KeyError; for a request that is no longer QUEUED it raises
    InvalidClientState; a numerator that is not a number makes [float]
    raise; in these three cases nothing changes. *)
Theorem X3_status_res (h : ClientHandler)
    (job_handle known running numerator denominator : string) (now : pyfloat) :
  let done := recv_status_res job_handle known running numerator denominator now h in
  (forall r n d,
     handle_to_request_map h !! job_handle = Some r ->
     state_of h r = JOB_QUEUED ->
     float numerator = Returned n ->
     float denominator = Returned d ->
     done.2 = Returned true /\
     request_objects done.1 r =
       set_server_status
         (Some (mkServerStatus job_handle (bool_decide (known = "1"))
                  (bool_decide (running = "1")) n d now))
         (request_objects h r) /\
     state_of done.1 r = JOB_QUEUED /\
     (forall r', r' <> r -> request_objects done.1 r' = request_objects h r')) /\
  (handle_to_request_map h !! job_handle = None ->
     done = (h, Raised (mkExc KeyError job_handle))) /\
  (forall r, handle_to_request_map h !! job_handle = Some r ->
     state_of h r <> JOB_QUEUED ->
     done.1 = h /\ raises done.2 InvalidClientState) /\
  (forall e, float numerator = Raised e ->
     done.1 = h /\ exists e', done.2 = Raised e').
Proof.
  intros done. subst done. unfold recv_status_res.
  split; [|split; [|split]].
  - intros r n d Hmap Hq Hn Hd.
    assert (Hl : lookup_queued job_handle h = Returned r).
    { apply lookup_queued_Returned. split; assumption. }
    rewrite Hl, Hn, Hd. cbn [fst snd]. split; [reflexivity|].
    split; [rewrite request_objects_update, decide_True by reflexivity; reflexivity|].
    split.
    + rewrite state_of_update, decide_True by reflexivity. exact Hq.
    + intros r' Hne. rewrite request_objects_update, decide_False by congruence.
      reflexivity.
  - intros Hnone. rewrite (lookup_queued_unknown _ _ Hnone). reflexivity.
  - intros r Hmap Hne.
    destruct (lookup_queued_wrong_state _ _ _ Hmap Hne) as (e & -> & Hty).
    split; [reflexivity | exact Hty].
  - intros e He. destruct (lookup_queued job_handle h) as [cur|e0].
    + rewrite He. split; [reflexivity | eauto].
    + split; [reflexivity | eauto].
Qed.

(** X4. JOB_CREATED when the oldest waiting request is not PENDING: the
    call raises InvalidClientState, but the request has already been taken
    off the deque.  It is not filed under the handle and no request object
    changes, so unless it waits a second time or is filed already, the
    handler no longer reports it among its requests. *)
Theorem X4_job_created_not_pending (h : ClientHandler) (job_handle : string)
    (r : nat) (rest : list nat) :
  requests_awaiting_handles h = r :: rest ->
  state_of h r <> JOB_PENDING ->
  let done := recv_job_created job_handle h in
  raises done.2 InvalidClientState /\
  requests_awaiting_handles done.1 = rest /\
  request_objects done.1 = request_objects h /\
  handle_to_request_map done.1 = handle_to_request_map h /\
  ((r ∉ rest) -> (r ∉ (get_requests h).2) ->
   (r ∉ (get_requests done.1).1) /\ (r ∉ (get_requests done.1).2)).
Proof.
  intros Hq Hne done. subst done. unfold recv_job_created. rewrite Hq.
  destruct (_assert_request_state _ JOB_PENDING) as [e|] eqn:E.
  - apply assert_request_state_raises in E as [_ Hty].
    cbn [fst snd]. repeat split; try assumption.
  - apply assert_request_state_None in E. simpl in E.
    unfold state_of in Hne. contradiction.
Qed.

(** X5. Submitting requests sends one submit command per request, in
    submission order, each with the task, the unique id and the encoded data
    of its request; the requests join the deque in the same order, and no
    request object and no entry of the handle map changes. *)
Theorem X5_send_job_requests (reqs : list nat) (h : ClientHandler) :
  let after := send_job_requests reqs h in
  sent_commands after =
    sent_commands h ++ ((fun r => submit_command (request_objects h r)) <$> reqs) /\
  requests_awaiting_handles after = requests_awaiting_handles h ++ reqs /\
  request_objects after = request_objects h /\
  handle_to_request_map after = handle_to_request_map h.
Proof.
  revert h. induction reqs as [|r reqs IH]; intros h after; subst after.
  - simpl. rewrite !app_nil_r. repeat split.
  - unfold send_job_requests in *. simpl foldl.
    destruct (IH (send_job_request r h)) as (Hs & Hq & Ho & Hm).
    rewrite Hs, Hq, Ho, Hm. simpl. rewrite <- !app_assoc. repeat split.
Qed.

Lemma recv_preserves_index (ev : client_event) (h : ClientHandler) :
  handle_index_consistent h -> handle_index_consistent (recv ev h).1.
Proof.
  intros Hinv.
  assert (Hupd : forall cur (f : JobRequest -> JobRequest),
    (forall x, job (f x) = job x) ->
    (forall x, state x <> JOB_PENDING -> state (f x) <> JOB_PENDING) ->
    state_of h cur <> JOB_PENDING ->
    handle_index_consistent (update_request cur f h)).
  { intros cur f Hjob Hst Hcur jh r Hmap. simpl in Hmap.
    destruct (Hinv jh r Hmap) as [Hh Hs].
    rewrite state_of_update, request_objects_update.
    destruct (decide (cur = r)) as [->|Hne].
    - rewrite Hjob. split; [exact Hh | apply Hst; exact Hs].
    - split; assumption. }
  assert (Hq : forall jh cur, lookup_queued jh h = Returned cur ->
                 state_of h cur <> JOB_PENDING).
  { intros jh cur Hl. apply lookup_queued_Returned in Hl as [_ ->]. discriminate. }
  destruct ev; simpl.
  - destruct (requests_awaiting_handles h) as [|cur rest] eqn:Hdq.
    { unfold recv_job_created. rewrite Hdq. exact Hinv. }
    destruct (decide (state_of h cur = JOB_PENDING)) as [Hp|Hp].
    + destruct (recv_job_created_pending job_handle h cur rest Hdq Hp)
        as (_ & _ & Hobj & Hframe & Hmap' & _).
      intros jh r Hmap. rewrite Hmap' in Hmap. unfold state_of.
      destruct (decide (job_handle = jh)) as [->|Hjh].
      * rewrite lookup_insert_eq in Hmap. injection Hmap as <-.
        rewrite Hobj. split; [reflexivity | discriminate].
      * rewrite lookup_insert_ne in Hmap by exact Hjh.
        destruct (Hinv jh r Hmap) as [Hh Hs].
        assert (Hne : r <> cur) by (intros ->; contradiction).
        rewrite (Hframe r Hne). split; assumption.
    + unfold recv_job_created. rewrite Hdq.
      destruct (_assert_request_state _ JOB_PENDING) as [e|] eqn:E.
      * intros jh r Hmap. apply Hinv. exact Hmap.
      * apply assert_request_state_None in E. contradiction.
  - unfold recv_work_data.
    destruct (lookup_queued job_handle h) as [cur|e] eqn:E; [|exact Hinv].
    apply Hupd; [reflexivity | intros x Hx; exact Hx | eapply Hq; exact E].
  - unfold recv_work_warning.
    destruct (lookup_queued job_handle h) as [cur|e] eqn:E; [|exact Hinv].
    apply Hupd; [reflexivity | intros x Hx; exact Hx | eapply Hq; exact E].
  - unfold recv_work_status.
    destruct (lookup_queued job_handle h) as [cur|e] eqn:E; [|exact Hinv].
    destruct (float numerator0); [|exact Hinv].
    destruct (float denominator0); [|exact Hinv].
    apply Hupd; [reflexivity | intros x Hx; exact Hx | eapply Hq; exact E].
  - unfold recv_work_complete.
    destruct (lookup_queued job_handle h) as [cur|e] eqn:E; [|exact Hinv].
    cbn [fst].
    assert (H1 : handle_index_consistent
                   (update_request cur (set_result (Some (decode_data data0))) h)).
    { apply Hupd; [reflexivity | intros x Hx; exact Hx | eapply Hq; exact E]. }
    intros jh r Hmap. simpl in Hmap.
    destruct (H1 jh r Hmap) as [Hh Hs].
    rewrite state_of_update, request_objects_update.
    destruct (decide (cur = r)) as [->|Hne].
    + split; [exact Hh | discriminate].
    + split; assumption.
  - unfold recv_work_fail.
    destruct (lookup_queued job_handle h) as [cur|e] eqn:E; [|exact Hinv].
    apply Hupd; [reflexivity | intros x Hx; discriminate | eapply Hq; exact E].
  - unfold recv_work_exception.
    destruct (lookup_queued job_handle h) as [cur|e] eqn:E; [|exact Hinv].
    apply Hupd; [reflexivity | intros x Hx; exact Hx | eapply Hq; exact E].
  - unfold recv_status_res.
    destruct (lookup_queued job_handle h) as [cur|e] eqn:E; [|exact Hinv].
    destruct (float numerator0); [|exact Hinv].
    destruct (float denominator0); [|exact Hinv].
    apply Hupd; [reflexivity | intros x Hx; exact Hx | eapply Hq; exact E].
Qed.

(** X6. The handle map stays a faithful index.  If every request filed
    under a handle carries that handle in its job and is past PENDING, the
    same holds after any submissions and after any sequence of inbound
    commands, whether the calls return or raise.  A handler whose map is
    empty starts out that way. *)
Theorem X6_handle_index_invariant (h : ClientHandler) (reqs : list nat)
    (evs : list client_event) :
  handle_index_consistent h ->
  handle_index_consistent (send_job_requests reqs h) /\
  handle_index_consistent (recv_all evs h).1 /\
  handle_index_consistent (recv_all evs (send_job_requests reqs h)).1.
Proof.
  assert (Hrun : forall evs' h', handle_index_consistent h' ->
                   handle_index_consistent (recv_all evs' h').1).
  { induction evs' as [|ev evs' IH]; intros h' Hinv; [exact Hinv|].
    rewrite recv_all_cons. cbn [fst]. apply IH. apply recv_preserves_index.
    exact Hinv. }
  intros Hinv.
  assert (Hsend : handle_index_consistent (send_job_requests reqs h)).
  { destruct (X5_send_job_requests reqs h) as (_ & _ & Ho & Hm).
    intros jh r Hmap. rewrite Hm in Hmap. unfold state_of. rewrite Ho.
    apply Hinv. exact Hmap. }
  split; [exact Hsend|]. split; apply Hrun; assumption.
Qed.

Lemma recv_terminal_frozen (ev : client_event) (h : ClientHandler) (r : nat) :
  terminal (state_of h r) ->
  request_objects (recv ev h).1 r = request_objects h r.
Proof.
  intros Ht.
  assert (Hnq : forall jh cur, lookup_queued jh h = Returned cur -> cur <> r).
  { intros jh cur Hl ->. apply lookup_queued_Returned in Hl as [_ Hq].
    destruct Ht as [Ht|Ht]; congruence. }
  destruct ev; simpl.
  - unfold recv_job_created.
    destruct (requests_awaiting_handles h) as [|cur rest]; [reflexivity|].
    destruct (_assert_request_state _ JOB_PENDING) as [e|] eqn:E; [reflexivity|].
    apply assert_request_state_None in E. simpl in E.
    simpl. unfold insert, fn_insert.
    destruct (decide (cur = r)) as [->|Hne]; [|reflexivity].
    unfold state_of in Ht. destruct Ht as [Ht|Ht]; congruence.
  - unfold recv_work_data.
    destruct (lookup_queued job_handle h) as [cur|e] eqn:E; [|reflexivity].
    cbn [fst]. rewrite request_objects_update, decide_False by (eapply Hnq; exact E).
    reflexivity.
  - unfold recv_work_warning.
    destruct (lookup_queued job_handle h) as [cur|e] eqn:E; [|reflexivity].
    cbn [fst]. rewrite request_objects_update, decide_False by (eapply Hnq; exact E).
    reflexivity.
  - unfold recv_work_status.
    destruct (lookup_queued job_handle h) as [cur|e] eqn:E; [|reflexivity].
    destruct (float numerator0); [|reflexivity].
    destruct (float denominator0); [|reflexivity].
    cbn [fst]. rewrite request_objects_update, decide_False by (eapply Hnq; exact E).
    reflexivity.
  - unfold recv_work_complete.
    destruct (lookup_queued job_handle h) as [cur|e] eqn:E; [|reflexivity].
    cbn [fst]. rewrite !request_objects_update, !decide_False by (eapply Hnq; exact E).
    reflexivity.
  - unfold recv_work_fail.
    destruct (lookup_queued job_handle h) as [cur|e] eqn:E; [|reflexivity].
    cbn [fst]. rewrite request_objects_update, decide_False by (eapply Hnq; exact E).
    reflexivity.
  - unfold recv_work_exception.
    destruct (lookup_queued job_handle h) as [cur|e] eqn:E; [|reflexivity].
    cbn [fst]. rewrite request_objects_update, decide_False by (eapply Hnq; exact E).
    reflexivity.
  - unfold recv_status_res.
    destruct (lookup_queued job_handle h) as [cur|e] eqn:E; [|reflexivity].
    destruct (float numerator0); [|reflexivity].
    destruct (float denominator0); [|reflexivity].
    cbn [fst]. rewrite request_objects_update, decide_False by (eapply Hnq; exact E).
    reflexivity.
Qed.

(** X7. A finished request is frozen: once a request is COMPLETE or FAILED,
    no sequence of inbound commands changes any of its fields, not only its
    state: late data, warnings, status, exceptions and results are all
    refused. *)
Theorem X7_terminal_request_frozen (evs : list client_event) (h : ClientHandler)
    (r : nat) :
  terminal (state_of h r) ->
  request_objects (recv_all evs h).1 r = request_objects h r.
Proof.
  revert h. induction evs as [|ev evs IH]; intros h Ht; [reflexivity|].
  rewrite recv_all_cons. cbn [fst].
  pose proof (recv_terminal_frozen ev h r Ht) as Hstep.
  rewrite IH.
  - exact Hstep.
  - unfold state_of. rewrite Hstep. exact Ht.
Qed.

(** X8. Updates accumulate in arrival order: a run of WORK_DATA commands
    for a QUEUED request appends their decoded payloads to [data_updates],
    oldest first; every call returns True and the request stays QUEUED with
    its other fields untouched. *)
Theorem X8_data_updates_in_order (payloads : list string) (h : ClientHandler)
    (job_handle : string) (r : nat) :
  handle_to_request_map h !! job_handle = Some r ->
  state_of h r = JOB_QUEUED ->
  let done := recv_all (WORK_DATA job_handle <$> payloads) h in
  done.2 = replicate (length payloads) (Returned true) /\
  request_objects done.1 r =
    set_data_updates
      (data_updates (request_objects h r) ++ (decode_data <$> payloads))
      (request_objects h r) /\
  handle_to_request_map done.1 = handle_to_request_map h.
Proof.
  revert h. induction payloads as [|p payloads IH]; intros h Hmap Hq done;
    subst done.
  - simpl. rewrite app_nil_r. split; [reflexivity|]. split; [|reflexivity].
    destruct (request_objects h r). reflexivity.
  - assert (Hl : lookup_queued job_handle h = Returned r).
    { apply lookup_queued_Returned. split; assumption. }
    set (h1 := update_request r
      (fun x => set_data_updates (data_updates x ++ [decode_data p]) x) h).
    assert (Hstep : recv (WORK_DATA job_handle p) h = (h1, Returned true)).
    { simpl. unfold recv_work_data. rewrite Hl. reflexivity. }
    assert (Hobj : request_objects h1 r =
              set_data_updates (data_updates (request_objects h r) ++ [decode_data p])
                (request_objects h r)).
    { subst h1. rewrite request_objects_update, decide_True by reflexivity.
      reflexivity. }
    destruct (IH h1) as (Hos & Ho & Hm).
    { exact Hmap. }
    { unfold state_of. rewrite Hobj. exact Hq. }
    rewrite fmap_cons, recv_all_cons, Hstep. cbn [fst snd].
    split; [simpl; rewrite Hos; reflexivity|].
    split; [|rewrite Hm; reflexivity].
    rewrite Ho, Hobj. simpl. rewrite <- app_assoc. reflexivity.
Qed.

(** X9. A JOB_CREATED that succeeds moves the request from the waiting side
    of [get_requests] to the in-flight side: it leaves the head of the
    deque and is among the values of the handle map. *)
Theorem X9_get_requests_after_created (h : ClientHandler) (job_handle : string)
    (r : nat) (rest : list nat) :
  requests_awaiting_handles h = r :: rest ->
  state_of h r = JOB_PENDING ->
  let after := (recv_job_created job_handle h).1 in
  (get_requests h).1 = r :: rest /\
  (get_requests after).1 = rest /\
  r ∈ (get_requests after).2.
Proof.
  intros Hq Hst after.
  destruct (recv_job_created_pending job_handle h r rest Hq Hst)
    as (_ & Hqa & _ & _ & Hmap & _).
  fold after in Hqa, Hmap.
  unfold get_requests. cbn [fst snd]. split; [exact Hq|]. split; [exact Hqa|].
  rewrite Hmap. apply list_elem_of_fmap. exists (job_handle, r).
  split; [reflexivity|]. apply elem_of_map_to_list. apply lookup_insert_eq.
Qed.

End ClientFurther.

(** * Further properties of the worker *)

Section WorkerFurther.
Context `{RT : PyRuntime} `{ENC : DataEncoder}.

Lemma elem_of_keys {V} (d : gmap nat V) (k : nat) :
  k ∈ keys d <-> is_Some (d !! k).
Proof.
  unfold keys. rewrite list_elem_of_fmap. split.
  - intros ([k' v] & -> & Hin). apply elem_of_map_to_list in Hin. eauto.
  - intros [v Hv]. exists (k, v). split; [reflexivity|].
    apply elem_of_map_to_list. exact Hv.
Qed.

Lemma foldl_update_handler_objects (f : WorkerHandler -> WorkerHandler)
    (refs : list nat) :
  NoDup refs ->
  forall (w : GearmanWorker) (ref : nat),
  let w' := foldl (fun acc r => update_handler r f acc) w refs in
  (ref ∈ refs -> handler_objects w' ref = f (handler_objects w ref)) /\
  (ref ∉ refs -> handler_objects w' ref = handler_objects w ref).
Proof.
  induction refs as [|a refs IH]; intros Hnd w ref; simpl.
  - split; [intros Hin; apply elem_of_nil in Hin; contradiction | reflexivity].
  - apply NoDup_cons in Hnd as [Ha Hnd].
    destruct (IH Hnd (update_handler a f w) ref) as [Hin Hout].
    split.
    + intros Href. apply elem_of_cons in Href as [->|Href].
      * rewrite (proj2 (IH Hnd (update_handler a f w) a) Ha).
        simpl. unfold insert, fn_insert. rewrite decide_True by reflexivity.
        reflexivity.
      * rewrite (Hin Href). simpl. unfold insert, fn_insert.
        rewrite decide_False; [reflexivity|]. intros ->. contradiction.
    + intros Href. rewrite Hout.
      * simpl. unfold insert, fn_insert. rewrite decide_False; [reflexivity|].
        intros ->. apply Href. left.
      * intros Hr. apply Href. right. exact Hr.
Qed.

(** The loop over [handler_to_connection_map.iterkeys()] calls into every
    registered command handler once and into no other. *)
Lemma for_each_handler_objects (f : WorkerHandler -> WorkerHandler)
    (w : GearmanWorker) (ref : nat) :
  (is_Some (handler_to_connection_map w !! ref) ->
   handler_objects (for_each_handler f w) ref = f (handler_objects w ref)) /\
  (handler_to_connection_map w !! ref = None ->
   handler_objects (for_each_handler f w) ref = handler_objects w ref).
Proof.
  unfold for_each_handler.
  destruct (foldl_update_handler_objects f (keys (handler_to_connection_map w))
              (NoDup_fst_map_to_list _) w ref) as [Hin Hout].
  split.
  - intros Hreg. apply Hin. apply elem_of_keys. exact Hreg.
  - intros Hnone. apply Hout. intros Hk. apply elem_of_keys in Hk as [c Hc].
    congruence.
Qed.

(** X10. Taking and giving back the job lock is a round trip, and the lock
    excludes the others: when the lock is free and a registered handler
    takes it, [check_job_lock] says so; the same handler giving it back
    restores the worker exactly; meanwhile every other handler fails both to
    take and to give back the lock, which leaves the worker unchanged, and
    [check_job_lock] denies it the lock. *)
Theorem X10_job_lock_round_trip (w : GearmanWorker) (command_handler : nat) :
  is_Some (handler_to_connection_map w !! command_handler) ->
  command_handler_holding_job_lock w = None ->
  let locked := (set_job_lock command_handler true w).1 in
  check_job_lock command_handler locked = true /\
  set_job_lock command_handler false locked = (w, true) /\
  (forall other lock, other <> command_handler ->
     set_job_lock other lock locked = (locked, false) /\
     check_job_lock other locked = false).
Proof.
  intros [c Hc] Hfree locked.
  assert (Hlocked : locked = set_holder (Some command_handler) w).
  { subst locked. unfold set_job_lock.
    rewrite decide_False by congruence. rewrite Hfree.
    rewrite (bool_decide_eq_false_2 (None ≠ None)) by (intros H; apply H; reflexivity).
    reflexivity. }
  rewrite Hlocked. split; [|split].
  - unfold check_job_lock. simpl. apply bool_decide_eq_true_2. reflexivity.
  - unfold set_job_lock. simpl. rewrite decide_False by congruence.
    rewrite (bool_decide_eq_false_2 (Some command_handler ≠ Some command_handler))
      by (intros H; apply H; reflexivity).
    simpl. destruct w. simpl in *. subst. reflexivity.
  - intros other lock Hne. split.
    + unfold set_job_lock. simpl.
      destruct lock; repeat (case_decide || case_bool_decide); simpl;
        try reflexivity; congruence.
    + unfold check_job_lock. simpl. apply bool_decide_eq_false_2. congruence.
Qed.




(** X12. When a connection fails, the worker runs the cleanup of the base
    manager on a worker in which the handler of that connection does not
    hold the job lock: it is released first if that handler, being
    registered, held it.  A lock held by another handler, and everything
    else in the worker, is passed on untouched. *)
Theorem X12_handle_error_releases_lock
    (super_handle_error : nat -> GearmanWorker -> GearmanWorker)
    (current_connection : nat) (w : GearmanWorker) :
  exists released,
    handle_error super_handle_error current_connection w =
      super_handle_error current_connection released /\
    (forall current_handler,
       connection_to_handler_map w !! current_connection = Some current_handler ->
       is_Some (handler_to_connection_map w !! current_handler) ->
       command_handler_holding_job_lock released <> Some current_handler) /\
    (forall current_handler,
       connection_to_handler_map w !! current_connection = Some current_handler ->
       command_handler_holding_job_lock w = Some current_handler ->
       is_Some (handler_to_connection_map w !! current_handler) ->
       released = set_holder None w) /\
    (command_handler_holding_job_lock released <> command_handler_holding_job_lock w ->
       command_handler_holding_job_lock released = None) /\
    (forall current_handler,
       connection_to_handler_map w !! current_connection = Some current_handler ->
       command_handler_holding_job_lock w <> Some current_handler ->
       released = w) /\
    (connection_to_handler_map w !! current_connection = None -> released = w).
Proof.
  unfold handle_error.
  destruct (connection_to_handler_map w !! current_connection) as [ch|] eqn:Hc.
  - exists (set_job_lock ch false w).1. split; [reflexivity|].
    unfold set_job_lock.
    destruct (decide (handler_to_connection_map w !! ch = None)) as [Hn|Hn].
    + simpl. split; [|split; [|split; [|split]]].
      * intros h [= <-] [c Hreg]. congruence.
      * intros h [= <-] _ [c Hreg]. congruence.
      * intros Hne. contradiction.
      * reflexivity.
      * discriminate.
    + destruct (decide (command_handler_holding_job_lock w = Some ch)) as [Hh|Hh].
      * rewrite (bool_decide_eq_false_2 _ (fun H => H Hh)). simpl.
        split; [|split; [|split; [|split]]].
        -- intros h _ _. discriminate.
        -- reflexivity.
        -- reflexivity.
        -- intros h [= <-] Hne. contradiction.
        -- discriminate.
      * rewrite (bool_decide_eq_true_2 _ Hh). simpl.
        split; [|split; [|split; [|split]]].
        -- intros h [= <-] _. exact Hh.
        -- intros h [= <-] Hheld. contradiction.
        -- intros Hne. contradiction.
        -- reflexivity.
        -- discriminate.
  - exists w. split; [reflexivity|].
    split; [|split; [|split; [|split]]]; try discriminate; try reflexivity.
    intros Hne. contradiction.
Qed.

Lemma register_task_frame (task : string) (callback_function : nat)
    (w : GearmanWorker) :
  let w' := (register_task task callback_function w).1 in
  worker_abilities w' = <[task := callback_function]> (worker_abilities w) /\
  worker_client_id w' = worker_client_id w /\
  command_handler_holding_job_lock w' = command_handler_holding_job_lock w /\
  handler_initial_state w' =
    mkInitialState (keys (<[task := callback_function]> (worker_abilities w)))
      (worker_client_id w) /\
  connection_to_handler_map w' = connection_to_handler_map w /\
  handler_to_connection_map w' = handler_to_connection_map w.
Proof.
  unfold register_task. cbn [fst].
  match goal with
  | |- context [for_each_handler ?f ?x] =>
      destruct (for_each_handler_frame f x) as (-> & -> & -> & -> & -> & ->)
  end.
  repeat split.
Qed.

Lemma unregister_task_frame (task : string) (w : GearmanWorker) :
  let w' := (unregister_task task w).1 in
  worker_abilities w' = delete task (worker_abilities w) /\
  worker_client_id w' = worker_client_id w /\
  command_handler_holding_job_lock w' = command_handler_holding_job_lock w /\
  handler_initial_state w' =
    mkInitialState (keys (delete task (worker_abilities w))) (worker_client_id w) /\
  connection_to_handler_map w' = connection_to_handler_map w /\
  handler_to_connection_map w' = handler_to_connection_map w.
Proof.
  unfold unregister_task. cbn [fst].
  match goal with
  | |- context [for_each_handler ?f ?x] =>
      destruct (for_each_handler_frame f x) as (-> & -> & -> & -> & -> & ->)
  end.
  repeat split.
Qed.


(** X14. Fan-out of an ability change.  After [register_task] or
    [unregister_task], [handler_initial_state] lists the keys of the new
    [worker_abilities]; every command handler registered in
    [handler_to_connection_map] has received exactly one [set_abilities]
    call with that list, and no other handler object has been touched. *)
Theorem X14_abilities_fan_out (task : string) (callback_function : nat)
    (w : GearmanWorker) (ref : nat) :
  let registered := (register_task task callback_function w).1 in
  let unregistered := (unregister_task task w).1 in
  abilities (handler_initial_state registered) = keys (worker_abilities registered) /\
  abilities (handler_initial_state unregistered) =
    keys (worker_abilities unregistered) /\
  (is_Some (handler_to_connection_map w !! ref) ->
   handler_objects registered ref =
     handler_set_abilities (keys (worker_abilities registered))
       (handler_objects w ref) /\
   handler_objects unregistered ref =
     handler_set_abilities (keys (worker_abilities unregistered))
       (handler_objects w ref)) /\
  (handler_to_connection_map w !! ref = None ->
   handler_objects registered ref = handler_objects w ref /\
   handler_objects unregistered ref = handler_objects w ref).
Proof.
  intros registered unregistered.
  destruct (register_task_frame task callback_function w) as (Ha & _ & _ & Hi & _).
  destruct (unregister_task_frame task w) as (Ha' & _ & _ & Hi' & _).
  fold registered in Ha, Hi. fold unregistered in Ha', Hi'.
  split; [rewrite Hi, Ha; reflexivity|].
  split; [rewrite Hi', Ha'; reflexivity|].
  rewrite Ha, Ha'. subst registered unregistered.
  unfold register_task, unregister_task. cbn [fst].
  split.
  - intros Hreg. split.
    + match goal with
      | |- context [for_each_handler ?f ?x] =>
          destruct (for_each_handler_objects f x ref) as [Hin _]
      end.
      rewrite Hin by exact Hreg. reflexivity.
    + match goal with
      | |- context [for_each_handler ?f ?x] =>
          destruct (for_each_handler_objects f x ref) as [Hin _]
      end.
      rewrite Hin by exact Hreg. reflexivity.
  - intros Hnone. split.
    + match goal with
      | |- context [for_each_handler ?f ?x] =>
          destruct (for_each_handler_objects f x ref) as [_ Hout]
      end.
      rewrite Hout by exact Hnone. reflexivity.
    + match goal with
      | |- context [for_each_handler ?f ?x] =>
          destruct (for_each_handler_objects f x ref) as [_ Hout]
      end.
      rewrite Hout by exact Hnone. reflexivity.
Qed.

(** X15. [set_client_id] records the id, brings [handler_initial_state] up
    to date, hands the id to every registered command handler once and to
    no other, and returns it; the abilities, the lock and the handler maps
    are unchanged. *)
Theorem X15_set_client_id (client_id : option string) (w : GearmanWorker)
    (ref : nat) :
  let done := set_client_id client_id w in
  done.2 = client_id /\
  worker_client_id done.1 = client_id /\
  handler_initial_state done.1 =
    mkInitialState (keys (worker_abilities w)) client_id /\
  worker_abilities done.1 = worker_abilities w /\
  command_handler_holding_job_lock done.1 = command_handler_holding_job_lock w /\
  handler_to_connection_map done.1 = handler_to_connection_map w /\
  (is_Some (handler_to_connection_map w !! ref) ->
   handler_objects done.1 ref = handler_set_client_id client_id (handler_objects w ref)) /\
  (handler_to_connection_map w !! ref = None ->
   handler_objects done.1 ref = handler_objects w ref).
Proof.
  intros done. subst done. unfold set_client_id. cbn [fst snd].
  match goal with
  | |- context [for_each_handler ?f ?x] =>
      destruct (for_each_handler_frame f x) as (-> & -> & -> & -> & _ & ->);
      destruct (for_each_handler_objects f x ref) as [Hin Hout]
  end.
  repeat split.
  - intros Hreg. rewrite Hin by exact Hreg. reflexivity.
  - intros Hnone. rewrite Hout by exact Hnone. reflexivity.
Qed.

(** X16. A job for a task that is not registered never reaches a callback:
    the KeyError of the lookup in [worker_abilities] is caught like a
    failure of the callback, so whatever the callbacks are, the worker
    sends the WORK_FAIL for the job and [on_job_execute] returns False. *)
Theorem X16_unregistered_task_fails (call : callback_env) (w : GearmanWorker)
    (current_job : GearmanJob) (ref : nat) :
  worker_abilities w !! task current_job = None ->
  connection_to_handler_map w !! connection current_job = Some ref ->
  on_job_execute call current_job w =
    (update_handler ref (handler_send_job_failure current_job) w, Returned false) /\
  sent_by (on_job_execute call current_job w).1 ref =
    sent_by w ref ++ [work_fail current_job].
Proof.
  intros Hnone Hconn.
  assert (Hrun : on_job_execute call current_job w =
    (update_handler ref (handler_send_job_failure current_job) w, Returned false)).
  { unfold on_job_execute. rewrite Hnone. simpl.
    unfold on_job_exception, send_job_failure.
    rewrite (with_handler_for_job_found _ _ _ _ Hconn). reflexivity. }
  split; [exact Hrun|]. rewrite Hrun. cbn [fst].
  rewrite sent_by_update, decide_True by reflexivity. reflexivity.
Qed.

(** X17. Every update a job sends through the worker needs the handler of
    the job's connection: when the connection has none, [send_job_status],
    [send_job_complete], [send_job_failure], [send_job_data],
    [send_job_warning] and [send_job_exception] all raise KeyError and send
    nothing.  When it has one, each of the first five returns normally and
    touches that handler object only. *)
Theorem X17_send_job_updates (w : GearmanWorker) (current_job : GearmanJob)
    (data numerator denominator : string) :
  (connection_to_handler_map w !! connection current_job = None ->
   let e := Raised (mkExc KeyError (object_repr (connection current_job))) in
   send_job_status current_job numerator denominator w = (w, e) /\
   send_job_complete current_job data w = (w, e) /\
   send_job_failure current_job w = (w, e) /\
   send_job_data current_job data w = (w, e) /\
   send_job_warning current_job data w = (w, e) /\
   send_job_exception current_job data w = (w, e)) /\
  (forall ref other,
     connection_to_handler_map w !! connection current_job = Some ref ->
     other <> ref ->
     let unchanged (r : GearmanWorker * outcome unit) :=
       r.2 = Returned tt /\ handler_objects r.1 other = handler_objects w other in
     unchanged (send_job_status current_job numerator denominator w) /\
     unchanged (send_job_complete current_job data w) /\
     unchanged (send_job_failure current_job w) /\
     unchanged (send_job_data current_job data w) /\
     unchanged (send_job_warning current_job data w)).
Proof.
  split.
  - intros Hnone e. subst e.
    unfold send_job_status, send_job_complete, send_job_failure, send_job_data,
      send_job_warning, send_job_exception, with_handler_for_job,
      _get_handler_for_job.
    rewrite Hnone. repeat split.
  - intros ref other Hconn Hne unchanged. subst unchanged.
    unfold send_job_status, send_job_complete, send_job_failure, send_job_data,
      send_job_warning.
    rewrite !(with_handler_for_job_found _ _ _ _ Hconn). cbn [fst snd].
    unfold update_handler. simpl. unfold insert, fn_insert.
    rewrite !decide_False by congruence. repeat split.
Qed.

(** X18. A job is routed back to the handler that created it: when the two
    handler maps agree, [create_job] for a registered handler builds a job
    on that handler's connection, with the handle, task, unique id and data
    it was given, and [_get_handler_for_job] finds that same handler for the
    job.  For a handler that is not registered [create_job] raises
    KeyError. *)
Theorem X18_create_job_round_trip (w : GearmanWorker) (command_handler : nat)
    (job_handle task unique data : string) :
  (forall current_connection,
     handler_maps_agree w ->
     handler_to_connection_map w !! command_handler = Some current_connection ->
     create_job command_handler job_handle task unique data w =
       Returned (mkJob current_connection (Some job_handle) task unique data) /\
     _get_handler_for_job
       (mkJob current_connection (Some job_handle) task unique data) w =
       Returned command_handler) /\
  (handler_to_connection_map w !! command_handler = None ->
   raises (create_job command_handler job_handle task unique data w) KeyError).
Proof.
  unfold create_job, _get_handler_for_job. split.
  - intros c Hagree Hreg. rewrite Hreg. split; [reflexivity|]. simpl.
    apply Hagree in Hreg. rewrite Hreg. reflexivity.
  - intros ->. reflexivity.
Qed.

End WorkerFurther.

(** * Further properties of the admin client *)

Section AdminFurther.
Context `{RT : PyRuntime} `{ENC : DataEncoder}.
Variable send_echo_request : string -> GearmanAdminClient -> GearmanAdminClient.
Variable poll_connections_until_stopped : poller.
Variable float_sub : pyfloat -> pyfloat -> pyfloat.
Variable response_str : parsed_response -> string.

(** X19. [ping_server] succeeds only on a faithful echo.  Once the echo
    request is sent and the poll has stopped: with no response ready the
    call raises InvalidAdminClientState; with a response ready it is popped,
    and the call returns the elapsed time exactly when the response is of
    the echo kind and its text is the string that was sent; for any other
    kind or text it raises InvalidAdminClientState. *)
Theorem X19_ping_server (c polled : GearmanAdminClient) (stopped : bool)
    (start_time end_time : pyfloat) :
  let sent := send_echo_request ECHO_STRING c in
  let done := ping_server send_echo_request poll_connections_until_stopped
                float_sub response_str start_time end_time c in
  poll_connections_until_stopped [current_connection sent]
    continue_while_no_response (admin_client_timeout sent) sent =
    (polled, Returned stopped) ->
  (response_ready (current_handler polled) = false ->
   done.1 = polled /\ raises done.2 InvalidAdminClientState) /\
  (forall kind resp rest,
     response_ready (current_handler polled) = true ->
     response_queue (current_handler polled) = (kind, resp) :: rest ->
     response_queue (current_handler done.1) = rest /\
     (kind = GEARMAN_COMMAND_ECHO_REQ -> resp = ResponseText ECHO_STRING ->
      done.2 = Returned (float_sub end_time start_time)) /\
     (kind <> GEARMAN_COMMAND_ECHO_REQ \/ resp <> ResponseText ECHO_STRING ->
      raises done.2 InvalidAdminClientState)).
Proof.
  intros sent done Hpoll. subst done.
  unfold ping_server, wait_until_server_responds. fold sent. rewrite Hpoll.
  split.
  - intros ->. simpl. split; reflexivity.
  - intros kind resp rest -> Hqueue. simpl. unfold pop_response. rewrite Hqueue.
    destruct (decide (kind ≠ GEARMAN_COMMAND_ECHO_REQ)) as [Hk|Hk].
    + split; [reflexivity|]. split; [intros Heq; contradiction | reflexivity].
    + destruct (decide (resp ≠ ResponseText ECHO_STRING)) as [Hr|Hr].
      * split; [reflexivity|]. split; [intros _ Heq; contradiction | reflexivity].
      * split; [reflexivity|]. split; [reflexivity|].
        intros [Hne|Hne]; contradiction.
Qed.

End AdminFurther.

(** * The properties at work on the example scenarios *)

Section Examples.
#[local] Existing Instance example_runtime.
#[local] Existing Instance identity_encoder.

(** Three fresh requests are submitted and acknowledged with H:1, H:2 and
    H:3: the second acknowledgement finds request 1 at the head, and files
    it under H:2. *)
Lemma C1_submit_ordering_witness :
  requests_awaiting_handles fresh_client = [] /\
  NoDup [0; 1; 2] /\
  (forall r, r ∈ [0; 1; 2] -> state_of fresh_client r = JOB_PENDING) /\
  length ["H:1"; "H:2"; "H:3"] = length [0; 1; 2] /\
  let submitted := send_job_requests [0; 1; 2] fresh_client in
  let before := (recv_all (JOB_CREATED <$> ["H:1"]) submitted).1 in
  let after := (recv_job_created "H:2" before).1 in
  requests_awaiting_handles submitted = [0; 1; 2] /\
  requests_awaiting_handles before = [1; 2] /\
  (recv_job_created "H:2" before).2 = Returned true /\
  requests_awaiting_handles after = [2] /\
  handle (job (request_objects after 1)) = Some "H:2" /\
  state_of after 1 = JOB_QUEUED /\
  handle_to_request_map after !! "H:2" = Some 1.
Proof.
  assert (H1 : requests_awaiting_handles fresh_client = []) by reflexivity.
  assert (H2 : NoDup [0; 1; 2]).
  { apply (bool_decide_unpack _). vm_compute. exact I. }
  assert (H3 : forall r, r ∈ [0; 1; 2] -> state_of fresh_client r = JOB_PENDING).
  { intros r Hr. repeat (apply elem_of_cons in Hr as [->|Hr]; [reflexivity|]).
    apply elem_of_nil in Hr. contradiction. }
  assert (H4 : length ["H:1"; "H:2"; "H:3"] = length [0; 1; 2]) by reflexivity.
  split; [exact H1|]. split; [exact H2|]. split; [exact H3|]. split; [exact H4|].
  destruct (C1_submit_ordering fresh_client [0; 1; 2] ["H:1"; "H:2"; "H:3"]
              H1 H2 H3 H4) as (Hsub & Hkth & _ & _).
  destruct (Hkth 1 1 "H:2" eq_refl eq_refl)
    as (Hb & _ & Hres & Ha & _ & Hh & Hs & Hm).
  intros submitted before after.
  split; [exact Hsub|]. split; [exact Hb|]. split; [exact Hres|].
  split; [exact Ha|]. split; [exact Hh|]. split; [exact Hs|]. exact Hm.
Defined.

(** Request 0 of the queued scenario is QUEUED under H:1.  A WORK_COMPLETE
    moves it to COMPLETE; after that a late WORK_FAIL for H:1 raises and
    the request stays COMPLETE. *)
Lemma C2_state_monotonicity_witness :
  let completed := (recv (WORK_COMPLETE "H:1" "cba") queued_client).1 in
  allowed_transition (state_of queued_client 0) (state_of completed 0) /\
  terminal (state_of completed 0) /\
  state_of (recv_all [WORK_FAIL "H:1"; WORK_DATA "H:1" "late"] completed).1 0 =
    JOB_COMPLETE /\
  work_event_handle (WORK_FAIL "H:1") = Some "H:1" /\
  handle_to_request_map completed !! "H:1" = Some 0 /\
  state_of completed 0 <> JOB_QUEUED /\
  exists e, recv (WORK_FAIL "H:1") completed = (completed, Raised e) /\
            exc_type e = InvalidClientState.
Proof.
  intros completed.
  assert (Ht : terminal (state_of completed 0)) by (left; reflexivity).
  assert (Hev : work_event_handle (WORK_FAIL "H:1") = Some "H:1") by reflexivity.
  assert (Hm : handle_to_request_map completed !! "H:1" = Some 0) by reflexivity.
  assert (Hq : state_of completed 0 <> JOB_QUEUED) by discriminate.
  destruct (C2_state_monotonicity queued_client 0) as (Hstep & _).
  destruct (C2_state_monotonicity completed 0) as (_ & _ & Habs & Hraise).
  split; [exact (Hstep (WORK_COMPLETE "H:1" "cba"))|].
  split; [exact Ht|].
  split; [exact (Habs [WORK_FAIL "H:1"; WORK_DATA "H:1" "late"] Ht)|].
  split; [exact Hev|]. split; [exact Hm|]. split; [exact Hq|].
  exact (Hraise (WORK_FAIL "H:1") "H:1" Hev Hm Hq).
Defined.

(** The claim as the spec words it fails on a handle the handler has never
    seen: H:2 is not in the map of the queued scenario, and WORK_DATA for it
    raises KeyError, not InvalidClientState.  And a WORK_STATUS for the
    QUEUED request whose numerator is not a number raises ValueError and
    appends nothing. *)
Lemma C3_work_updates_counterexample :
  handle_to_request_map queued_client !! "H:2" = None /\
  recv_work_data "H:2" "part" queued_client =
    (queued_client, Raised (mkExc KeyError "H:2")) /\
  ~ raises (recv_work_data "H:2" "part" queued_client).2 InvalidClientState /\
  ~ raises (recv_work_warning "H:2" "part" queued_client).2 InvalidClientState /\
  ~ raises (recv_work_status "H:2" "3" "10" queued_client).2 InvalidClientState /\
  handle_to_request_map queued_client !! "H:1" = Some 0 /\
  state_of queued_client 0 = JOB_QUEUED /\
  raises (recv_work_status "H:1" "abc" "10" queued_client).2 ValueError /\
  status_updates
    (request_objects (recv_work_status "H:1" "abc" "10" queued_client).1 0) = [].
Proof.
  repeat split; try reflexivity; vm_compute; discriminate.
Qed.

(** The scenario E3 of the spec on the queued request: WORK_STATUS (3, 10)
    and WORK_DATA part are appended; an unknown handle gets KeyError. *)
Lemma C3_work_updates_witness :
  handle_to_request_map queued_client !! "H:2" = None /\
  handle_to_request_map queued_client !! "H:1" = Some 0 /\
  state_of queued_client 0 = JOB_QUEUED /\
  float "3" = Returned 3000000%Z /\
  float "10" = Returned 10000000%Z /\
  recv_work_warning "H:2" "careful" queued_client =
    (queued_client, Raised (mkExc KeyError "H:2")) /\
  data_updates (request_objects (recv_work_data "H:1" "part" queued_client).1 0) =
    ["part"] /\
  status_updates
    (request_objects (recv_work_status "H:1" "3" "10" queued_client).1 0) =
    [(3000000%Z, 10000000%Z)] /\
  state_of (recv_work_status "H:1" "3" "10" queued_client).1 0 = JOB_QUEUED.
Proof.
  assert (Hu : handle_to_request_map queued_client !! "H:2" = None) by reflexivity.
  assert (Hm : handle_to_request_map queued_client !! "H:1" = Some 0) by reflexivity.
  assert (Hq : state_of queued_client 0 = JOB_QUEUED) by reflexivity.
  assert (Hn : float "3" = Returned 3000000%Z) by reflexivity.
  assert (Hd : float "10" = Returned 10000000%Z) by reflexivity.
  destruct (C3_work_updates queued_client "H:2") as (Hunknown & _).
  destruct (Hunknown Hu "careful" "3" "10") as (_ & Hw & _).
  destruct (C3_work_updates queued_client "H:1") as (_ & Hknown).
  destruct (Hknown 0 Hm Hq) as (Hdata & _ & Hstatus).
  destruct (Hdata "part") as (_ & Hdu & _).
  destruct (Hstatus "3" "10" _ _ Hn Hd) as (_ & Hsu & Hst).
  repeat (split; [assumption|]). assumption.
Defined.

(** A WORK_EXCEPTION for the queued request stores its data and leaves the
    request QUEUED. *)
Lemma C4_work_exception_frame_witness :
  handle_to_request_map queued_client !! "H:1" = Some 0 /\
  state_of queued_client 0 = JOB_QUEUED /\
  let after := (recv_work_exception "H:1" "boom" queued_client).1 in
  (recv_work_exception "H:1" "boom" queued_client).2 = Returned true /\
  exception (request_objects after 0) = Some "boom" /\
  state_of after 0 = JOB_QUEUED /\
  result (request_objects after 0) = None /\
  handle_to_request_map after = handle_to_request_map queued_client.
Proof.
  assert (Hm : handle_to_request_map queued_client !! "H:1" = Some 0) by reflexivity.
  assert (Hq : state_of queued_client 0 = JOB_QUEUED) by reflexivity.
  split; [exact Hm|]. split; [exact Hq|].
  destruct (C4_work_exception_frame queued_client "H:1" "boom" 0 Hm Hq)
    as (Hres & _ & Hexc & Hst & _ & Hresult & _ & _ & _ & _ & _ & _ & Hmap & _).
  intros after.
  split; [exact Hres|]. split; [exact Hexc|]. split; [exact Hst|].
  split; [exact Hresult|]. exact Hmap.
Defined.

(** The lock is free, yet the unregistered handler 2 cannot take it: the
    claim as the spec words it (taking the lock succeeds whenever nobody
    holds it) fails there. *)
Lemma C5_job_lock_counterexample :
  command_handler_holding_job_lock example_worker = None /\
  set_job_lock 2 true example_worker = (example_worker, false).
Proof. split; reflexivity. Qed.

(** The registered handler 1 takes the free lock, cannot take it twice,
    and gives it back; handler 2 is turned away. *)
Lemma C5_job_lock_witness :
  is_Some (handler_to_connection_map example_worker !! 1) /\
  command_handler_holding_job_lock example_worker = None /\
  handler_to_connection_map example_worker !! 2 = None /\
  let locked := (set_job_lock 1 true example_worker).1 in
  (set_job_lock 1 true example_worker).2 = true /\
  locked = set_holder (Some 1) example_worker /\
  (set_job_lock 1 true locked).2 = false /\
  (set_job_lock 1 true locked).1 = locked /\
  (set_job_lock 1 false locked).2 = true /\
  set_job_lock 2 false locked = (locked, false).
Proof.
  assert (Hreg : is_Some (handler_to_connection_map example_worker !! 1))
    by (exists 10; reflexivity).
  assert (Hfree : command_handler_holding_job_lock example_worker = None)
    by reflexivity.
  assert (Hun : handler_to_connection_map example_worker !! 2 = None)
    by reflexivity.
  split; [exact Hreg|]. split; [exact Hfree|]. split; [exact Hun|].
  intros locked.
  destruct (C5_job_lock example_worker 1) as (Hiff & Hset & _).
  destruct (Hiff Hreg) as ((_ & Hacq) & _).
  pose proof (Hacq Hfree) as Hok.
  pose proof (Hset Hok) as Hlocked. fold locked in Hlocked.
  assert (Hreg' : is_Some (handler_to_connection_map locked !! 1))
    by (exists 10; reflexivity).
  assert (Hheld : command_handler_holding_job_lock locked = Some 1)
    by reflexivity.
  destruct (C5_job_lock locked 1) as (Hiff' & _ & _ & _ & Hfail).
  destruct (Hiff' Hreg') as (_ & (_ & Hrel)).
  assert (Hagain : (set_job_lock 1 true locked).2 = false) by reflexivity.
  destruct (C5_job_lock locked 2) as (_ & _ & _ & Hturned & _).
  split; [exact Hok|]. split; [exact Hlocked|]. split; [exact Hagain|].
  split; [exact (Hfail true Hagain)|]. split; [exact (Hrel Hheld)|].
  exact (Hturned Hun false).
Defined.

(** A callback that calls [sys.exit()] raises SystemExit, which
    [except Exception] does not catch: [on_job_execute] neither sends
    WORK_FAIL nor returns False, the exception leaves it. *)
Lemma C8_on_job_execute_counterexample :
  worker_abilities example_worker !! task (example_job "exit") = Some 1 /\
  (example_call 1 (example_job "exit") example_worker).2 =
    Raised (mkExc SystemExit "0") /\
  on_job_execute example_call (example_job "exit") example_worker =
    (example_worker, Raised (mkExc SystemExit "0")) /\
  sent_by (on_job_execute example_call (example_job "exit") example_worker).1 1 = [].
Proof. repeat split. Qed.

(** The task reverse returns cba after one WORK_DATA update: the handler
    has sent that update once and then the WORK_COMPLETE.  The task broken
    raises an application exception: the handler has sent the WORK_FAIL
    alone. *)
Lemma C8_on_job_execute_witness :
  let job_ok := example_job "reverse" in
  let job_bad := example_job "broken" in
  worker_abilities example_worker !! task job_ok = Some 0 /\
  connection_to_handler_map (example_call 0 job_ok example_worker).1 !!
    connection job_ok = Some 1 /\
  worker_abilities example_worker !! task job_bad = Some 2 /\
  connection_to_handler_map (example_call 2 job_bad example_worker).1 !!
    connection job_bad = Some 1 /\
  (on_job_execute example_call job_ok example_worker).2 = Returned true /\
  sent_by (on_job_execute example_call job_ok example_worker).1 1 =
    [mkCommand GEARMAN_COMMAND_WORK_DATA
       [("job_handle", Some "H:1"); ("data", Some "cba")];
     mkCommand GEARMAN_COMMAND_WORK_COMPLETE
       [("job_handle", Some "H:1"); ("data", Some "cba")]] /\
  (on_job_execute example_call job_bad example_worker).2 = Returned false /\
  sent_by (on_job_execute example_call job_bad example_worker).1 1 =
    [mkCommand GEARMAN_COMMAND_WORK_FAIL [("job_handle", Some "H:1")]].
Proof.
  intros job_ok job_bad.
  assert (Hcb : worker_abilities example_worker !! task job_ok = Some 0)
    by reflexivity.
  assert (Hconn : connection_to_handler_map
            (example_call 0 job_ok example_worker).1 !! connection job_ok = Some 1)
    by reflexivity.
  assert (Hcb' : worker_abilities example_worker !! task job_bad = Some 2)
    by reflexivity.
  assert (Hconn' : connection_to_handler_map
            (example_call 2 job_bad example_worker).1 !! connection job_bad = Some 1)
    by reflexivity.
  split; [exact Hcb|]. split; [exact Hconn|].
  split; [exact Hcb'|]. split; [exact Hconn'|].
  destruct (C8_on_job_execute example_call example_worker
              (example_call 0 job_ok example_worker).1 job_ok 0 1
              (Returned "cba") Hcb eq_refl Hconn) as ((Hdone & Hsent) & _).
  destruct (C8_on_job_execute example_call example_worker
              (example_call 2 job_bad example_worker).1 job_bad 2 1
              (Raised (mkExc (ApplicationError "RuntimeError") "broken"))
              Hcb' eq_refl Hconn') as ((Hdone' & Hsent') & _).
  split; [rewrite Hdone; reflexivity|].
  split; [rewrite Hsent; reflexivity|].
  split; [rewrite Hdone'; reflexivity|].
  rewrite Hsent'. reflexivity.
Defined.

(** On the job of connection 10 the handler sends WORK_EXCEPTION and then
    WORK_FAIL; on a job of the unknown connection 11 nothing is sent. *)
Lemma C9_send_job_exception_witness :
  let job := example_job "reverse" in
  let stray := mkJob 11 (Some "H:9") "reverse" "" "abc" in
  connection_to_handler_map example_worker !! connection job = Some 1 /\
  connection_to_handler_map example_worker !! connection stray = None /\
  (send_job_exception job "boom" example_worker).2 = Returned tt /\
  sent_by (send_job_exception job "boom" example_worker).1 1 =
    [mkCommand GEARMAN_COMMAND_WORK_EXCEPTION
       [("job_handle", Some "H:1"); ("data", Some "boom")];
     mkCommand GEARMAN_COMMAND_WORK_FAIL [("job_handle", Some "H:1")]] /\
  (send_job_exception stray "boom" example_worker).1 = example_worker /\
  raises (send_job_exception stray "boom" example_worker).2 KeyError.
Proof.
  intros job stray.
  assert (Hconn : connection_to_handler_map example_worker !! connection job = Some 1)
    by reflexivity.
  assert (Hnone : connection_to_handler_map example_worker !! connection stray = None)
    by reflexivity.
  split; [exact Hconn|]. split; [exact Hnone|].
  destruct (C9_send_job_exception example_worker job "boom") as (Hfound & _).
  destruct (Hfound 1 Hconn) as (Hres & Hsent & _).
  destruct (C9_send_job_exception example_worker stray "boom") as (_ & Hmiss).
  split; [exact Hres|]. split; [exact Hsent|].
  rewrite (Hmiss Hnone). split; reflexivity.
Defined.

(** Unregistering the task upper, which was never registered, returns its
    name and leaves the abilities alone; unregistering reverse twice is the
    same as doing it once. *)
Lemma C10_unregister_task_idempotent_witness :
  worker_abilities example_worker !! "upper" = None /\
  (unregister_task "upper" example_worker).2 = "upper" /\
  worker_abilities (unregister_task "upper" example_worker).1 =
    worker_abilities example_worker /\
  let once := unregister_task "reverse" example_worker in
  let twice := unregister_task "reverse" once.1 in
  worker_abilities once.1 !! "reverse" = None /\
  worker_abilities twice.1 = worker_abilities once.1 /\
  handler_initial_state twice.1 = handler_initial_state once.1.
Proof.
  assert (Hnone : worker_abilities example_worker !! "upper" = None) by reflexivity.
  split; [exact Hnone|].
  destruct (C10_unregister_task_idempotent example_worker "upper")
    as (Hret & _ & _ & Hsame & _).
  destruct (C10_unregister_task_idempotent example_worker "reverse")
    as (_ & _ & Hgone & _ & Hab & Hinit).
  split; [exact Hret|]. split; [exact (Hsame Hnone)|].
  intros once twice. split; [exact Hgone|]. split; [exact Hab|]. exact Hinit.
Defined.

(** The caller expects the status table and the server answers with its
    version: the call raises and the version line is gone from the queue.
    When the server answers with the status table, the call returns it. *)
Lemma C6_admin_kind_check_witness :
  let version := ResponseText "1.1.12" in
  let table := ResponseRows [[("task", "reverse"); ("queued", "0");
                              ("running", "0"); ("workers", "1")]] in
  let wrong :=
    wait_until_server_responds
      (answering_poll GEARMAN_SERVER_COMMAND_VERSION version)
      GEARMAN_SERVER_COMMAND_STATUS example_admin_client in
  let right :=
    wait_until_server_responds
      (answering_poll GEARMAN_SERVER_COMMAND_STATUS table)
      GEARMAN_SERVER_COMMAND_STATUS example_admin_client in
  GEARMAN_SERVER_COMMAND_VERSION <> GEARMAN_SERVER_COMMAND_STATUS /\
  raises wrong.2 InvalidAdminClientState /\
  response_queue (current_handler wrong.1) = [] /\
  right.2 = Returned table /\
  response_queue (current_handler right.1) = [].
Proof.
  intros version table wrong right.
  assert (Hne : GEARMAN_SERVER_COMMAND_VERSION <> GEARMAN_SERVER_COMMAND_STATUS)
    by discriminate.
  split; [exact Hne|].
  destruct (C6_admin_kind_check
              (answering_poll GEARMAN_SERVER_COMMAND_VERSION version)
              GEARMAN_SERVER_COMMAND_STATUS GEARMAN_SERVER_COMMAND_VERSION
              example_admin_client _ true version [] eq_refl eq_refl eq_refl)
    as (Hq & Hraise & _).
  destruct (C6_admin_kind_check
              (answering_poll GEARMAN_SERVER_COMMAND_STATUS table)
              GEARMAN_SERVER_COMMAND_STATUS GEARMAN_SERVER_COMMAND_STATUS
              example_admin_client _ true table [] eq_refl eq_refl eq_refl)
    as (Hq' & _ & Hret).
  split; [exact (Hraise Hne)|]. split; [exact Hq|].
  split; [exact (Hret eq_refl)|]. exact Hq'.
Defined.

(** The scenario E6 of the spec: the server stays silent for the 0.1
    seconds of the timeout and the call raises with the timeout in its
    message. *)
Lemma C7_admin_timeout_witness :
  silent_poll [current_connection example_admin_client] continue_while_no_response
    (admin_client_timeout example_admin_client) example_admin_client =
    (example_admin_client, Returned true) /\
  response_ready (current_handler example_admin_client) = false /\
  wait_until_server_responds silent_poll GEARMAN_SERVER_COMMAND_STATUS
    example_admin_client =
    (example_admin_client,
     Raised (mkExc InvalidAdminClientState
               "Admin client timed out after 0.100000 second(s)")).
Proof.
  split; [reflexivity|]. split; [reflexivity|].
  exact (C7_admin_timeout silent_poll GEARMAN_SERVER_COMMAND_STATUS
           example_admin_client example_admin_client true eq_refl eq_refl).
Defined.

End Examples.

(** * The further properties on the example scenarios *)

Section FurtherExamples.
#[local] Existing Instance example_runtime.
#[local] Existing Instance identity_encoder.

(** The scenario E3 of the spec ends with WORK_COMPLETE done. *)
Lemma X1_work_complete_frame_witness :
  handle_to_request_map queued_client !! "H:1" = Some 0 /\
  state_of queued_client 0 = JOB_QUEUED /\
  let after := (recv_work_complete "H:1" "done" queued_client).1 in
  result (request_objects after 0) = Some "done" /\
  state_of after 0 = JOB_COMPLETE /\
  handle_to_request_map after = handle_to_request_map queued_client.
Proof.
  assert (Hm : handle_to_request_map queued_client !! "H:1" = Some 0) by reflexivity.
  assert (Hq : state_of queued_client 0 = JOB_QUEUED) by reflexivity.
  split; [exact Hm|]. split; [exact Hq|].
  destruct (X1_work_complete_frame queued_client "H:1" "done" 0 Hm Hq)
    as (_ & Hobj & _ & _ & Hmap & _).
  intros after. fold after in Hobj, Hmap.
  split; [rewrite Hobj; reflexivity|].
  split; [unfold state_of; rewrite Hobj; reflexivity | exact Hmap].
Defined.

Lemma X2_work_fail_frame_witness :
  handle_to_request_map queued_client !! "H:1" = Some 0 /\
  state_of queued_client 0 = JOB_QUEUED /\
  let after := (recv_work_fail "H:1" queued_client).1 in
  state_of after 0 = JOB_FAILED /\
  result (request_objects after 0) = None.
Proof.
  assert (Hm : handle_to_request_map queued_client !! "H:1" = Some 0) by reflexivity.
  assert (Hq : state_of queued_client 0 = JOB_QUEUED) by reflexivity.
  split; [exact Hm|]. split; [exact Hq|].
  destruct (X2_work_fail_frame queued_client "H:1" 0 Hm Hq)
    as (_ & Hobj & Hres & _).
  intros after. fold after in Hobj, Hres.
  split; [unfold state_of; rewrite Hobj; reflexivity|].
  rewrite Hres. reflexivity.
Defined.

(** A STATUS_RES saying known, not running, 3 of 10. *)
Lemma X3_status_res_witness :
  handle_to_request_map queued_client !! "H:1" = Some 0 /\
  state_of queued_client 0 = JOB_QUEUED /\
  float "3" = Returned 3000000%Z /\
  float "10" = Returned 10000000%Z /\
  handle_to_request_map queued_client !! "H:2" = None /\
  server_status
    (request_objects
       (recv_status_res "H:1" "1" "0" "3" "10" 42%Z queued_client).1 0) =
    Some (mkServerStatus "H:1" true false 3000000%Z 10000000%Z 42%Z) /\
  recv_status_res "H:2" "1" "0" "3" "10" 42%Z queued_client =
    (queued_client, Raised (mkExc KeyError "H:2")).
Proof.
  assert (Hm : handle_to_request_map queued_client !! "H:1" = Some 0) by reflexivity.
  assert (Hq : state_of queued_client 0 = JOB_QUEUED) by reflexivity.
  assert (Hn : float "3" = Returned 3000000%Z) by reflexivity.
  assert (Hd : float "10" = Returned 10000000%Z) by reflexivity.
  assert (Hu : handle_to_request_map queued_client !! "H:2" = None) by reflexivity.
  split; [exact Hm|]. split; [exact Hq|]. split; [exact Hn|]. split; [exact Hd|].
  split; [exact Hu|].
  destruct (X3_status_res queued_client "H:1" "1" "0" "3" "10" 42%Z) as (Hok & _).
  destruct (Hok 0 _ _ Hm Hq Hn Hd) as (_ & Hobj & _).
  destruct (X3_status_res queued_client "H:2" "1" "0" "3" "10" 42%Z)
    as (_ & Hunknown & _).
  split; [rewrite Hobj; reflexivity | exact (Hunknown Hu)].
Defined.

(** Request 0 was submitted twice; the second JOB_CREATED finds it QUEUED,
    raises, and has dropped it from the deque. *)
Lemma X4_job_created_not_pending_witness :
  requests_awaiting_handles resubmitted_client = [0] /\
  state_of resubmitted_client 0 <> JOB_PENDING /\
  let done := recv_job_created "H:2" resubmitted_client in
  raises done.2 InvalidClientState /\
  requests_awaiting_handles done.1 = [] /\
  handle_to_request_map done.1 !! "H:2" = None.
Proof.
  assert (Hq : requests_awaiting_handles resubmitted_client = [0]) by reflexivity.
  assert (Hs : state_of resubmitted_client 0 <> JOB_PENDING) by discriminate.
  split; [exact Hq|]. split; [exact Hs|].
  destruct (X4_job_created_not_pending resubmitted_client "H:2" 0 [] Hq Hs)
    as (Hr & Hd & _ & Hm & _).
  intros done. fold done in Hr, Hd, Hm.
  split; [exact Hr|]. split; [exact Hd|]. rewrite Hm. reflexivity.
Defined.

Lemma fresh_client_consistent : handle_index_consistent fresh_client.
Proof. intros jh r Hmap. simpl in Hmap. rewrite lookup_empty in Hmap. discriminate. Defined.

(** After two submissions and a run of inbound commands, one of which
    raises, the request filed under H:2 carries the handle H:2. *)
Lemma X6_handle_index_invariant_witness :
  handle_index_consistent fresh_client /\
  let evs := [JOB_CREATED "H:1"; WORK_DATA "H:9" "stray"; JOB_CREATED "H:2";
              WORK_COMPLETE "H:1" "done"] in
  let after := (recv_all evs (send_job_requests [0; 1] fresh_client)).1 in
  handle_index_consistent after /\
  handle_to_request_map after !! "H:2" = Some 1 /\
  handle (job (request_objects after 1)) = Some "H:2".
Proof.
  split; [exact fresh_client_consistent|].
  intros evs after.
  destruct (X6_handle_index_invariant fresh_client [0; 1] evs fresh_client_consistent)
    as (_ & _ & Hinv).
  fold after in Hinv.
  assert (Hm : handle_to_request_map after !! "H:2" = Some 1) by reflexivity.
  split; [exact Hinv|]. split; [exact Hm|].
  exact (proj1 (Hinv "H:2" 1 Hm)).
Defined.

(** A completed request ignores a late WORK_DATA, WORK_EXCEPTION and
    WORK_FAIL. *)
Lemma X7_terminal_request_frozen_witness :
  let completed := (recv_work_complete "H:1" "done" queued_client).1 in
  let late := [WORK_DATA "H:1" "late"; WORK_EXCEPTION "H:1" "boom"; WORK_FAIL "H:1"] in
  terminal (state_of completed 0) /\
  request_objects (recv_all late completed).1 0 = request_objects completed 0.
Proof.
  intros completed late.
  assert (Ht : terminal (state_of completed 0)) by (left; reflexivity).
  split; [exact Ht|]. exact (X7_terminal_request_frozen late completed 0 Ht).
Defined.

Lemma X8_data_updates_in_order_witness :
  handle_to_request_map queued_client !! "H:1" = Some 0 /\
  state_of queued_client 0 = JOB_QUEUED /\
  let done := recv_all (WORK_DATA "H:1" <$> ["a"; "b"; "c"]) queued_client in
  done.2 = [Returned true; Returned true; Returned true] /\
  data_updates (request_objects done.1 0) = ["a"; "b"; "c"].
Proof.
  assert (Hm : handle_to_request_map queued_client !! "H:1" = Some 0) by reflexivity.
  assert (Hq : state_of queued_client 0 = JOB_QUEUED) by reflexivity.
  split; [exact Hm|]. split; [exact Hq|].
  destruct (X8_data_updates_in_order ["a"; "b"; "c"] queued_client "H:1" 0 Hm Hq)
    as (Hos & Hobj & _).
  intros done. fold done in Hos, Hobj.
  split; [exact Hos|]. rewrite Hobj. reflexivity.
Defined.

Lemma X9_get_requests_after_created_witness :
  let submitted := send_job_requests [0; 1] fresh_client in
  requests_awaiting_handles submitted = [0; 1] /\
  state_of submitted 0 = JOB_PENDING /\
  (get_requests (recv_job_created "H:1" submitted).1).1 = [1] /\
  0 ∈ (get_requests (recv_job_created "H:1" submitted).1).2.
Proof.
  intros submitted.
  assert (Hq : requests_awaiting_handles submitted = [0; 1]) by reflexivity.
  assert (Hs : state_of submitted 0 = JOB_PENDING) by reflexivity.
  split; [exact Hq|]. split; [exact Hs|].
  destruct (X9_get_requests_after_created submitted "H:1" 0 [1] Hq Hs)
    as (_ & Hp & Hi).
  split; [exact Hp | exact Hi].
Defined.

Lemma X10_job_lock_round_trip_witness :
  is_Some (handler_to_connection_map example_worker !! 1) /\
  command_handler_holding_job_lock example_worker = None /\
  let locked := (set_job_lock 1 true example_worker).1 in
  check_job_lock 1 locked = true /\
  set_job_lock 1 false locked = (example_worker, true) /\
  set_job_lock 2 false locked = (locked, false).
Proof.
  assert (Hreg : is_Some (handler_to_connection_map example_worker !! 1))
    by (exists 10; reflexivity).
  assert (Hfree : command_handler_holding_job_lock example_worker = None)
    by reflexivity.
  split; [exact Hreg|]. split; [exact Hfree|].
  destruct (X10_job_lock_round_trip example_worker 1 Hreg Hfree)
    as (Hc & Hback & Hothers).
  intros locked. split; [exact Hc|]. split; [exact Hback|].
  assert (Hne : 2 <> 1) by discriminate.
  exact (proj1 (Hothers 2 false Hne)).
Defined.


(** Connection 10 fails while its handler holds the lock: the cleanup runs
    on a worker whose lock is free. *)
Lemma X12_handle_error_releases_lock_witness :
  connection_to_handler_map locked_worker !! 10 = Some 1 /\
  command_handler_holding_job_lock locked_worker = Some 1 /\
  is_Some (handler_to_connection_map locked_worker !! 1) /\
  exists released,
    handle_error example_super_handle_error 10 locked_worker =
      example_super_handle_error 10 released /\
    released = set_holder None locked_worker.
Proof.
  assert (Hc : connection_to_handler_map locked_worker !! 10 = Some 1) by reflexivity.
  assert (Hh : command_handler_holding_job_lock locked_worker = Some 1) by reflexivity.
  assert (Hreg : is_Some (handler_to_connection_map locked_worker !! 1))
    by (exists 10; reflexivity).
  split; [exact Hc|]. split; [exact Hh|]. split; [exact Hreg|].
  destruct (X12_handle_error_releases_lock example_super_handle_error 10 locked_worker)
    as (released & Hrun & _ & Hrel & _).
  exists released. split; [exact Hrun | exact (Hrel 1 Hc Hh Hreg)].
Defined.


(** Handler 1 is registered and is told the new abilities; handler 2 is not
    and hears nothing. *)
Lemma X14_abilities_fan_out_witness :
  is_Some (handler_to_connection_map example_worker !! 1) /\
  handler_to_connection_map example_worker !! 2 = None /\
  let unregistered := (unregister_task "broken" example_worker).1 in
  handler_abilities (handler_objects unregistered 1) =
    keys (worker_abilities unregistered) /\
  handler_objects unregistered 2 = handler_objects example_worker 2.
Proof.
  assert (Hreg : is_Some (handler_to_connection_map example_worker !! 1))
    by (exists 10; reflexivity).
  assert (Hnone : handler_to_connection_map example_worker !! 2 = None)
    by reflexivity.
  split; [exact Hreg|]. split; [exact Hnone|].
  destruct (X14_abilities_fan_out "broken" 0 example_worker 1) as (_ & _ & Hin & _).
  destruct (X14_abilities_fan_out "broken" 0 example_worker 2) as (_ & _ & _ & Hout).
  destruct (Hin Hreg) as (_ & Hobj). destruct (Hout Hnone) as (_ & Hsame).
  intros unregistered. fold unregistered in Hobj, Hsame.
  split; [rewrite Hobj; reflexivity | exact Hsame].
Defined.

Lemma X15_set_client_id_witness :
  is_Some (handler_to_connection_map example_worker !! 1) /\
  handler_to_connection_map example_worker !! 2 = None /\
  let done := set_client_id (Some "worker-a") example_worker in
  worker_client_id done.1 = Some "worker-a" /\
  handler_client_id (handler_objects done.1 1) = Some "worker-a" /\
  handler_objects done.1 2 = handler_objects example_worker 2.
Proof.
  assert (Hreg : is_Some (handler_to_connection_map example_worker !! 1))
    by (exists 10; reflexivity).
  assert (Hnone : handler_to_connection_map example_worker !! 2 = None)
    by reflexivity.
  split; [exact Hreg|]. split; [exact Hnone|].
  destruct (X15_set_client_id (Some "worker-a") example_worker 1)
    as (_ & Hid & _ & _ & _ & _ & Hin & _).
  destruct (X15_set_client_id (Some "worker-a") example_worker 2)
    as (_ & _ & _ & _ & _ & _ & _ & Hout).
  intros done. split; [exact Hid|].
  split; [unfold done; rewrite (Hin Hreg); reflexivity | exact (Hout Hnone)].
Defined.

Lemma X16_unregistered_task_fails_witness :
  worker_abilities example_worker !! task (example_job "upper") = None /\
  connection_to_handler_map example_worker !! connection (example_job "upper") =
    Some 1 /\
  (on_job_execute example_call (example_job "upper") example_worker).2 =
    Returned false /\
  sent_by (on_job_execute example_call (example_job "upper") example_worker).1 1 =
    [mkCommand GEARMAN_COMMAND_WORK_FAIL [("job_handle", Some "H:1")]].
Proof.
  assert (Hnone : worker_abilities example_worker !! task (example_job "upper") = None)
    by reflexivity.
  assert (Hconn : connection_to_handler_map example_worker !!
                    connection (example_job "upper") = Some 1) by reflexivity.
  split; [exact Hnone|]. split; [exact Hconn|].
  destruct (X16_unregistered_task_fails example_call example_worker
              (example_job "upper") 1 Hnone Hconn) as (Hrun & Hsent).
  split; [rewrite Hrun; reflexivity | exact Hsent].
Defined.

Lemma X17_send_job_updates_witness :
  let stray := mkJob 11 (Some "H:9") "reverse" "" "abc" in
  connection_to_handler_map example_worker !! connection stray = None /\
  (send_job_data stray "part" example_worker).1 = example_worker /\
  raises (send_job_data stray "part" example_worker).2 KeyError /\
  raises (send_job_complete stray "cba" example_worker).2 KeyError.
Proof.
  intros stray.
  assert (Hnone : connection_to_handler_map example_worker !! connection stray = None)
    by reflexivity.
  split; [exact Hnone|].
  destruct (X17_send_job_updates example_worker stray "part" "1" "2") as (Hmiss & _).
  destruct (Hmiss Hnone) as (_ & _ & _ & Hd & _).
  destruct (X17_send_job_updates example_worker stray "cba" "1" "2") as (Hmiss' & _).
  destruct (Hmiss' Hnone) as (_ & Hc & _).
  rewrite Hd, Hc. repeat split.
Defined.

Lemma example_worker_maps_agree : handler_maps_agree example_worker.
Proof.
  intros ch c. simpl. split; intros Hl.
  - apply lookup_singleton_Some in Hl as [<- <-]. reflexivity.
  - apply lookup_singleton_Some in Hl as [<- <-]. reflexivity.
Defined.

Lemma X18_create_job_round_trip_witness :
  handler_maps_agree example_worker /\
  handler_to_connection_map example_worker !! 1 = Some 10 /\
  handler_to_connection_map example_worker !! 2 = None /\
  create_job 1 "H:1" "reverse" "" "abc" example_worker =
    Returned (example_job "reverse") /\
  _get_handler_for_job (example_job "reverse") example_worker = Returned 1 /\
  raises (create_job 2 "H:1" "reverse" "" "abc" example_worker) KeyError.
Proof.
  assert (Hreg : handler_to_connection_map example_worker !! 1 = Some 10)
    by reflexivity.
  assert (Hnone : handler_to_connection_map example_worker !! 2 = None)
    by reflexivity.
  split; [exact example_worker_maps_agree|]. split; [exact Hreg|].
  split; [exact Hnone|].
  destruct (X18_create_job_round_trip example_worker 1 "H:1" "reverse" "" "abc")
    as (Hok & _).
  destruct (Hok 10 example_worker_maps_agree Hreg) as (Hjob & Hback).
  destruct (X18_create_job_round_trip example_worker 2 "H:1" "reverse" "" "abc")
    as (_ & Hmiss).
  split; [exact Hjob|]. split; [exact Hback | exact (Hmiss Hnone)].
Defined.

(** The scenario E1 of the spec: the server echoes the string and the ping
    returns the elapsed time.  A server that answers something else makes
    it raise. *)
Lemma X19_ping_server_witness :
  let ping poll :=
    ping_server example_send_echo_request poll Z.sub example_response_str
      1000000%Z 1250000%Z example_admin_client in
  (ping (answering_poll GEARMAN_COMMAND_ECHO_REQ (ResponseText "ping? pong!"))).2 =
    Returned 250000%Z /\
  raises (ping (answering_poll GEARMAN_COMMAND_ECHO_REQ (ResponseText "pong"))).2
    InvalidAdminClientState /\
  raises (ping silent_poll).2 InvalidAdminClientState.
Proof.
  intros ping.
  destruct (X19_ping_server example_send_echo_request
              (answering_poll GEARMAN_COMMAND_ECHO_REQ (ResponseText "ping? pong!"))
              Z.sub example_response_str example_admin_client _ true
              1000000%Z 1250000%Z eq_refl) as (_ & Hready).
  destruct (Hready GEARMAN_COMMAND_ECHO_REQ (ResponseText "ping? pong!") []
              eq_refl eq_refl) as (_ & Hok & _).
  destruct (X19_ping_server example_send_echo_request
              (answering_poll GEARMAN_COMMAND_ECHO_REQ (ResponseText "pong"))
              Z.sub example_response_str example_admin_client _ true
              1000000%Z 1250000%Z eq_refl) as (_ & Hready').
  destruct (Hready' GEARMAN_COMMAND_ECHO_REQ (ResponseText "pong") []
              eq_refl eq_refl) as (_ & _ & Hbad).
  destruct (X19_ping_server example_send_echo_request silent_poll
              Z.sub example_response_str example_admin_client _ true
              1000000%Z 1250000%Z eq_refl) as (Hsilent & _).
  split; [exact (Hok eq_refl eq_refl)|].
  split; [apply Hbad; right; discriminate|].
  exact (proj2 (Hsilent eq_refl)).
Defined.

End FurtherExamples.
